(** * The JetStream broker adapter (broker/nats.go), embedded and verified

    The adapter implements the host framework's broker interface on top of
    the NATS client.  Everything it does is a sequence of reads and writes of
    its own struct, interleaved with calls into collaborators (the NATS
    client, the codec registry, the tracer, the user's handlers).  The
    embedding keeps that shape: every method is a program in a small effect
    monad [prog]; a collaborator call is a visible [event] whose answer is
    supplied by an oracle. *)

From Stdlib Require Import String Ascii List Bool Arith Lia.
Import ListNotations.
Open Scope string_scope.
Open Scope list_scope.

Set Implicit Arguments.

(** ** Data of the collaborating packages *)

(** Go's [error] values, told apart by where they are allocated.  The
    errors a collaborator (NATS client, codec) hands back are
    [foreign_error]s: the two sentinels are package variables of the client,
    [ErrExternal] stands for any other of them.  [errors.New] inside the
    adapter allocates a value of the adapter's own, which no collaborator
    can produce. *)
Inductive foreign_error : Type :=
| ErrStreamNotFound
| ErrDrainTimeout
| ErrExternal (msg : string).

Inductive error : Type :=
| errors_New (msg : string)
| foreign (e : foreign_error).

(** [errors.Is err target] for the two sentinels the adapter tests. *)
Definition errors_Is (err target : foreign_error) : bool :=
  match err, target with
  | ErrStreamNotFound, ErrStreamNotFound => true
  | ErrDrainTimeout, ErrDrainTimeout => true
  | _, _ => false
  end.

Definition bytes := list Byte.byte.

(** Handles owned by collaborators; the adapter only passes them around. *)
Inductive TLSConfig : Type := tlsConfig (id : nat).
Inductive Conn : Type := connPtr (id : nat).
Inductive JetStreamContext : Type := jsContext (id : nat).
Inductive Subscription : Type := subscriptionPtr (id : nat).
Inductive Span : Type := spanRef (id : nat).
Inductive Handler : Type := handlerFn (id : nat).
Inductive Binder : Type := binderFn (id : nat).

(** An unbuffered [chan error]; [nilChan] is the zero value. *)
Inductive Chan : Type := nilChan | chanRef (id : nat).

(** Values of Go's [any] as far as the adapter distinguishes them. *)
Inductive Any : Type :=
| AnyNil
| AnyBytes (d : bytes)
| AnyProto (id : nat)
| AnyValue (id : nat).

Definition Header := list (string * list string).

(** [Header.Add]: append a value under a key. *)
Fixpoint Header_Add (h : Header) (k v : string) : Header :=
  match h with
  | [] => [(k, [v])]
  | (k', vs) :: h' =>
      if String.eqb k k' then (k', vs ++ [v]) :: h'
      else (k', vs) :: Header_Add h' k v
  end.

(** The NATS client (github.com/nats-io/nats.go), as far as the adapter
    names its types and constants. *)
Module natsGo.

Definition DefaultURL : string := "nats://127.0.0.1:4222".

Inductive Status : Type :=
| DISCONNECTED | CONNECTED | CLOSED | RECONNECTING | CONNECTING
| DRAINING_SUBS | DRAINING_PUBS.

Inductive RetentionPolicy : Type := LimitsPolicy | InterestPolicy | WorkQueuePolicy.

Record StreamConfig : Type := {
  Name : string;
  Subjects : list string;
  Retention : RetentionPolicy
}.

Definition zeroStreamConfig : StreamConfig :=
  {| Name := ""; Subjects := []; Retention := LimitsPolicy |}.

Record StreamInfo : Type := { Config : StreamConfig }.

(** The three lifecycle callbacks the adapter can register are its own
    methods; the option struct records which one sits in each slot. *)
Inductive ConnHandler : Type := cb_onClose.
Inductive ErrHandler : Type := cb_onAsyncError.
Inductive ConnErrHandler : Type := cb_onDisconnectedError.

Record Options : Type := {
  Servers : list string;
  Secure : bool;
  TLSConfig_ : option TLSConfig;
  ClosedCB : option ConnHandler;
  AsyncErrorCB : option ErrHandler;
  DisconnectedErrCB : option ConnErrHandler
}.

(** The zero value of the struct. *)
Definition zeroOptions : Options :=
  {| Servers := []; Secure := false; TLSConfig_ := None;
     ClosedCB := None; AsyncErrorCB := None; DisconnectedErrCB := None |}.

(** The client's defaults name no server, no TLS and no callback; on the
    fields the adapter reads they coincide with the zero value. *)
Definition GetDefaultOptions : Options :=
  {| Servers := []; Secure := false; TLSConfig_ := None;
     ClosedCB := None; AsyncErrorCB := None; DisconnectedErrCB := None |}.

Definition set_Servers (v : list string) (o : Options) : Options :=
  {| Servers := v; Secure := Secure o; TLSConfig_ := TLSConfig_ o;
     ClosedCB := ClosedCB o; AsyncErrorCB := AsyncErrorCB o;
     DisconnectedErrCB := DisconnectedErrCB o |}.

Definition set_Secure (v : bool) (o : Options) : Options :=
  {| Servers := Servers o; Secure := v; TLSConfig_ := TLSConfig_ o;
     ClosedCB := ClosedCB o; AsyncErrorCB := AsyncErrorCB o;
     DisconnectedErrCB := DisconnectedErrCB o |}.

Definition set_TLSConfig (v : option TLSConfig) (o : Options) : Options :=
  {| Servers := Servers o; Secure := Secure o; TLSConfig_ := v;
     ClosedCB := ClosedCB o; AsyncErrorCB := AsyncErrorCB o;
     DisconnectedErrCB := DisconnectedErrCB o |}.

Definition set_ClosedCB (v : option ConnHandler) (o : Options) : Options :=
  {| Servers := Servers o; Secure := Secure o; TLSConfig_ := TLSConfig_ o;
     ClosedCB := v; AsyncErrorCB := AsyncErrorCB o;
     DisconnectedErrCB := DisconnectedErrCB o |}.

Definition set_AsyncErrorCB (v : option ErrHandler) (o : Options) : Options :=
  {| Servers := Servers o; Secure := Secure o; TLSConfig_ := TLSConfig_ o;
     ClosedCB := ClosedCB o; AsyncErrorCB := v;
     DisconnectedErrCB := DisconnectedErrCB o |}.

Definition set_DisconnectedErrCB (v : option ConnErrHandler) (o : Options) : Options :=
  {| Servers := Servers o; Secure := Secure o; TLSConfig_ := TLSConfig_ o;
     ClosedCB := ClosedCB o; AsyncErrorCB := AsyncErrorCB o;
     DisconnectedErrCB := v |}.

Record Msg : Type := {
  Subject : string;
  Data : bytes;
  Header_ : Header
}.

Definition NewMsg (subject : string) : Msg :=
  {| Subject := subject; Data := []; Header_ := [] |}.

Inductive SubOpt : Type := DeliverAll | DeliverNew | DeliverLast.

End natsGo.

(** ** [context.Context] as the adapter uses it

    A context is a chain of key/value bindings; [Value] returns the
    innermost binding of a key, [None] standing for Go's [nil]. *)

Inductive ctxKey : Type :=
| optionsKey | drainConnectionKey | jetstreamConfKey
| headersKey
| deliverAllKey | deliverNewKey | deliverLastKey
| foreignKey (id : nat).

Inductive ctxVal : Type :=
| VStruct
| VNatsOptions (o : natsGo.Options)
| VStreamConfig (c : natsGo.StreamConfig)
| VHeaders (h : Header)
| VForeign (id : nat).

Definition ctxKey_eqb (a b : ctxKey) : bool :=
  match a, b with
  | optionsKey, optionsKey
  | drainConnectionKey, drainConnectionKey
  | jetstreamConfKey, jetstreamConfKey
  | headersKey, headersKey
  | deliverAllKey, deliverAllKey
  | deliverNewKey, deliverNewKey
  | deliverLastKey, deliverLastKey => true
  | foreignKey n, foreignKey m => Nat.eqb n m
  | _, _ => false
  end.

Module context.

Definition Context := list (ctxKey * ctxVal).

Definition Background : Context := [].

Definition WithValue (parent : Context) (k : ctxKey) (v : ctxVal) : Context :=
  (k, v) :: parent.

Fixpoint Value (ctx : Context) (k : ctxKey) : option ctxVal :=
  match ctx with
  | [] => None
  | (k', v) :: parent => if ctxKey_eqb k k' then Some v else Value parent k
  end.

End context.

Module tracing.

Inductive SpanKind : Type := SpanKindProducer | SpanKindConsumer.

Definition Option := nat.

Record Tracer : Type := {
  kind : SpanKind;
  spanName : string;
  tracerOpts : list Option
}.

Definition NewTracer (k : SpanKind) (name : string) (opts : list Option) : Tracer :=
  {| kind := k; spanName := name; tracerOpts := opts |}.

End tracing.

Module encoding.
Record Codec : Type := { Name : string }.
End encoding.

Module kProto.
Definition Name : string := "proto".
End kProto.

(** The host framework's package [broker]
    (github.com/tx7do/kratos-transport/broker): its option structs and the
    option constructors the adapter and its callers use.  An option is a
    function that updates the struct it is applied to. *)
Module broker.

Record Options : Type := {
  Addrs : list string;
  Codec : option encoding.Codec;
  ErrorHandler : option Handler;
  Secure : bool;
  TLSConfig_ : option TLSConfig;
  Context : context.Context;
  Tracings : list tracing.Option
}.

Definition Option := Options -> Options.

Definition NewOptions : Options :=
  {| Addrs := []; Codec := None; ErrorHandler := None; Secure := false;
     TLSConfig_ := None; Context := context.Background; Tracings := [] |}.

(** [for _, o := range opts { o(&options) }] *)
Definition apply (opts : list Option) (o : Options) : Options :=
  fold_left (fun acc f => f acc) opts o.

Definition NewOptionsAndApply (opts : list Option) : Options :=
  apply opts NewOptions.

Definition set_Addrs (v : list string) (o : Options) : Options :=
  {| Addrs := v; Codec := Codec o; ErrorHandler := ErrorHandler o;
     Secure := Secure o; TLSConfig_ := TLSConfig_ o; Context := Context o;
     Tracings := Tracings o |}.

Definition set_Secure (v : bool) (o : Options) : Options :=
  {| Addrs := Addrs o; Codec := Codec o; ErrorHandler := ErrorHandler o;
     Secure := v; TLSConfig_ := TLSConfig_ o; Context := Context o;
     Tracings := Tracings o |}.

Definition set_TLSConfig (v : option TLSConfig) (o : Options) : Options :=
  {| Addrs := Addrs o; Codec := Codec o; ErrorHandler := ErrorHandler o;
     Secure := Secure o; TLSConfig_ := v; Context := Context o;
     Tracings := Tracings o |}.

Definition set_Context (v : context.Context) (o : Options) : Options :=
  {| Addrs := Addrs o; Codec := Codec o; ErrorHandler := ErrorHandler o;
     Secure := Secure o; TLSConfig_ := TLSConfig_ o; Context := v;
     Tracings := Tracings o |}.

Definition set_Codec (v : option encoding.Codec) (o : Options) : Options :=
  {| Addrs := Addrs o; Codec := v; ErrorHandler := ErrorHandler o;
     Secure := Secure o; TLSConfig_ := TLSConfig_ o; Context := Context o;
     Tracings := Tracings o |}.

Definition set_ErrorHandler (v : option Handler) (o : Options) : Options :=
  {| Addrs := Addrs o; Codec := Codec o; ErrorHandler := v;
     Secure := Secure o; TLSConfig_ := TLSConfig_ o; Context := Context o;
     Tracings := Tracings o |}.

Definition set_Tracings (v : list tracing.Option) (o : Options) : Options :=
  {| Addrs := Addrs o; Codec := Codec o; ErrorHandler := ErrorHandler o;
     Secure := Secure o; TLSConfig_ := TLSConfig_ o; Context := Context o;
     Tracings := v |}.

Definition WithAddress (addrs : list string) : Option := set_Addrs addrs.
Definition WithCodec (c : string) : Option :=
  set_Codec (Some {| encoding.Name := c |}).
Definition WithErrorHandler (h : Handler) : Option := set_ErrorHandler (Some h).
Definition WithGlobalTracerProvider : Option :=
  fun o => set_Tracings (Tracings o ++ [0]) o.

Definition OptionContextWithValue (k : ctxKey) (v : ctxVal) : Option :=
  fun o => set_Context (context.WithValue (Context o) k v) o.

Record PublishOptions : Type := { pContext : context.Context }.

Definition PublishOption := PublishOptions -> PublishOptions.

Definition PublishContextWithValue (k : ctxKey) (v : ctxVal) : PublishOption :=
  fun o => {| pContext := context.WithValue (pContext o) k v |}.

Record SubscribeOptions : Type := {
  AutoAck : bool;
  Queue : string;
  sContext : context.Context
}.

Definition SubscribeOption := SubscribeOptions -> SubscribeOptions.

Definition SubscribeContextWithValue (k : ctxKey) (v : ctxVal) : SubscribeOption :=
  fun o => {| AutoAck := AutoAck o; Queue := Queue o;
              sContext := context.WithValue (sContext o) k v |}.

Definition WithQueueName (name : string) : SubscribeOption :=
  fun o => {| AutoAck := AutoAck o; Queue := name; sContext := sContext o |}.

Definition DisableAutoAck : SubscribeOption :=
  fun o => {| AutoAck := false; Queue := Queue o; sContext := sContext o |}.

Record Message : Type := {
  Headers : Header;
  Body : Any
}.

End broker.


(** ** The adapter's own types *)

(** Modelled from the spec: the subscriber wrapper (declared in a file of the
    package that is not part of the sources at hand) is a small value object
    holding the native subscription handle and the subscribe options; the
    back pointer to the broker is left out. *)
Record subscriber : Type := {
  s : option Subscription;
  sub_options : broker.SubscribeOptions
}.

(** Modelled from the spec: the publication wrapper (same remark) carries the
    topic, the delivered message and an optional error. *)
Record publication : Type := {
  t : string;
  m : broker.Message;
  err : option error
}.

(** Modelled from the spec: the header bridge converts the client's header
    representation into the generic mapping from keys to value lists; both
    are association lists here. *)
Definition natsHeaderToMap (h : Header) : Header := h.

(** Modelled from the spec: the message carrier wraps the message so that a
    tracing context can be injected into or extracted from its headers. *)
Definition NewMessageCarrier (msg : natsGo.Msg) : natsGo.Msg := msg.

(** The closure [fn] built by [Subscribe]: what it captures besides the
    broker itself. *)
Record callback : Type := {
  cb_handler : Handler;
  cb_binder : option Binder;
  cb_options : broker.SubscribeOptions
}.

Definition defaultAddr : string := "nats://127.0.0.1:5222".

Record natsBroker : Type := {
  once : bool;                       (* sync.Once: has Do run *)
  connected : bool;
  options : broker.Options;
  conn : option Conn;
  natsOpts : natsGo.Options;
  jsCtx : option JetStreamContext;
  streamInfo : option natsGo.StreamInfo;
  subscribers : list (string * subscriber);
  drain : bool;
  closeCh : Chan;
  streamCfg : natsGo.StreamConfig;
  producerTracer : option tracing.Tracer;
  consumerTracer : option tracing.Tracer
}.

Definition with_once (v : bool) (b : natsBroker) : natsBroker :=
  {| once := v; connected := connected b; options := options b; conn := conn b;
     natsOpts := natsOpts b; jsCtx := jsCtx b; streamInfo := streamInfo b;
     subscribers := subscribers b; drain := drain b; closeCh := closeCh b;
     streamCfg := streamCfg b; producerTracer := producerTracer b;
     consumerTracer := consumerTracer b |}.

Definition with_connected (v : bool) (b : natsBroker) : natsBroker :=
  {| once := once b; connected := v; options := options b; conn := conn b;
     natsOpts := natsOpts b; jsCtx := jsCtx b; streamInfo := streamInfo b;
     subscribers := subscribers b; drain := drain b; closeCh := closeCh b;
     streamCfg := streamCfg b; producerTracer := producerTracer b;
     consumerTracer := consumerTracer b |}.

Definition with_options (v : broker.Options) (b : natsBroker) : natsBroker :=
  {| once := once b; connected := connected b; options := v; conn := conn b;
     natsOpts := natsOpts b; jsCtx := jsCtx b; streamInfo := streamInfo b;
     subscribers := subscribers b; drain := drain b; closeCh := closeCh b;
     streamCfg := streamCfg b; producerTracer := producerTracer b;
     consumerTracer := consumerTracer b |}.

Definition with_conn (v : option Conn) (b : natsBroker) : natsBroker :=
  {| once := once b; connected := connected b; options := options b; conn := v;
     natsOpts := natsOpts b; jsCtx := jsCtx b; streamInfo := streamInfo b;
     subscribers := subscribers b; drain := drain b; closeCh := closeCh b;
     streamCfg := streamCfg b; producerTracer := producerTracer b;
     consumerTracer := consumerTracer b |}.

Definition with_natsOpts (v : natsGo.Options) (b : natsBroker) : natsBroker :=
  {| once := once b; connected := connected b; options := options b; conn := conn b;
     natsOpts := v; jsCtx := jsCtx b; streamInfo := streamInfo b;
     subscribers := subscribers b; drain := drain b; closeCh := closeCh b;
     streamCfg := streamCfg b; producerTracer := producerTracer b;
     consumerTracer := consumerTracer b |}.

Definition with_jsCtx (v : option JetStreamContext) (b : natsBroker) : natsBroker :=
  {| once := once b; connected := connected b; options := options b; conn := conn b;
     natsOpts := natsOpts b; jsCtx := v; streamInfo := streamInfo b;
     subscribers := subscribers b; drain := drain b; closeCh := closeCh b;
     streamCfg := streamCfg b; producerTracer := producerTracer b;
     consumerTracer := consumerTracer b |}.

Definition with_streamInfo (v : option natsGo.StreamInfo) (b : natsBroker) : natsBroker :=
  {| once := once b; connected := connected b; options := options b; conn := conn b;
     natsOpts := natsOpts b; jsCtx := jsCtx b; streamInfo := v;
     subscribers := subscribers b; drain := drain b; closeCh := closeCh b;
     streamCfg := streamCfg b; producerTracer := producerTracer b;
     consumerTracer := consumerTracer b |}.

Definition with_subscribers (v : list (string * subscriber)) (b : natsBroker) : natsBroker :=
  {| once := once b; connected := connected b; options := options b; conn := conn b;
     natsOpts := natsOpts b; jsCtx := jsCtx b; streamInfo := streamInfo b;
     subscribers := v; drain := drain b; closeCh := closeCh b;
     streamCfg := streamCfg b; producerTracer := producerTracer b;
     consumerTracer := consumerTracer b |}.

Definition with_drain (v : bool) (b : natsBroker) : natsBroker :=
  {| once := once b; connected := connected b; options := options b; conn := conn b;
     natsOpts := natsOpts b; jsCtx := jsCtx b; streamInfo := streamInfo b;
     subscribers := subscribers b; drain := v; closeCh := closeCh b;
     streamCfg := streamCfg b; producerTracer := producerTracer b;
     consumerTracer := consumerTracer b |}.

Definition with_closeCh (v : Chan) (b : natsBroker) : natsBroker :=
  {| once := once b; connected := connected b; options := options b; conn := conn b;
     natsOpts := natsOpts b; jsCtx := jsCtx b; streamInfo := streamInfo b;
     subscribers := subscribers b; drain := drain b; closeCh := v;
     streamCfg := streamCfg b; producerTracer := producerTracer b;
     consumerTracer := consumerTracer b |}.

Definition with_streamCfg (v : natsGo.StreamConfig) (b : natsBroker) : natsBroker :=
  {| once := once b; connected := connected b; options := options b; conn := conn b;
     natsOpts := natsOpts b; jsCtx := jsCtx b; streamInfo := streamInfo b;
     subscribers := subscribers b; drain := drain b; closeCh := closeCh b;
     streamCfg := v; producerTracer := producerTracer b;
     consumerTracer := consumerTracer b |}.

Definition with_producerTracer (v : option tracing.Tracer) (b : natsBroker) : natsBroker :=
  {| once := once b; connected := connected b; options := options b; conn := conn b;
     natsOpts := natsOpts b; jsCtx := jsCtx b; streamInfo := streamInfo b;
     subscribers := subscribers b; drain := drain b; closeCh := closeCh b;
     streamCfg := streamCfg b; producerTracer := v;
     consumerTracer := consumerTracer b |}.

Definition with_consumerTracer (v : option tracing.Tracer) (b : natsBroker) : natsBroker :=
  {| once := once b; connected := connected b; options := options b; conn := conn b;
     natsOpts := natsOpts b; jsCtx := jsCtx b; streamInfo := streamInfo b;
     subscribers := subscribers b; drain := drain b; closeCh := closeCh b;
     streamCfg := streamCfg b; producerTracer := producerTracer b;
     consumerTracer := v |}.

(** ** Effects

    Every call that leaves the adapter is an [event]; [res e] is the type of
    what the collaborator hands back.  A Go result pair [(T, error)] is a
    sum, a lone [error] an option; the user's handlers may return any
    error. *)

Inductive event : Type :=
(* sync.RWMutex *)
| EvLock | EvUnlock | EvRLock | EvRUnlock
(* make(chan error) *)
| EvMakeChan
(* the NATS client *)
| EvOptsConnect (o : natsGo.Options)
| EvConnStatus (c : Conn)
| EvConnIsConnected (c : Conn)
| EvConnConnectedUrl (c : Conn)
| EvConnJetStream (c : Conn)
| EvStreamInfo (js : JetStreamContext) (name : string)
| EvAddStream (js : JetStreamContext) (cfg : natsGo.StreamConfig)
| EvUpdateStream (js : JetStreamContext) (cfg : natsGo.StreamConfig)
| EvConnDrain (c : Conn)
| EvConnClose (c : Conn)
| EvConnPublishMsg (c : Conn) (msg : natsGo.Msg)
| EvJsPublishMsg (js : JetStreamContext) (msg : natsGo.Msg)
| EvConnSubscribe (c : Conn) (topic : string) (fn : callback)
| EvConnQueueSubscribe (c : Conn) (topic queue : string) (fn : callback)
| EvJsSubscribe (js : JetStreamContext) (topic : string) (fn : callback)
    (subOpts : list natsGo.SubOpt)
| EvJsQueueSubscribe (js : JetStreamContext) (topic queue : string)
    (fn : callback) (subOpts : list natsGo.SubOpt)
| EvMsgAck (msg : natsGo.Msg)
(* the host framework: codec registry, subscriber registry, logger *)
| EvMarshal (codec : option encoding.Codec) (msg : Any)
| EvUnmarshal (codec : option encoding.Codec) (data : bytes) (target : Any)
| EvSubscribersAdd (topic : string) (sub : subscriber)
| EvSubscribersClear
| EvLogErrorf (format : string) (e : error)
(* the user's functions *)
| EvHandler (h : Handler) (ctx : context.Context) (pub : publication)
| EvErrorHandler (h : Handler) (ctx : context.Context) (pub : publication)
| EvBinder (bd : Binder)
(* the tracer *)
| EvTracerStart (tr : tracing.Tracer) (ctx : context.Context)
    (carrier : natsGo.Msg) (attrs : list (string * string))
| EvTracerEnd (tr : tracing.Tracer) (ctx : context.Context)
    (span : option Span) (e : option error).

Definition res (e : event) : Type :=
  match e with
  | EvMakeChan => nat
  | EvOptsConnect _ => (Conn + foreign_error)%type
  | EvConnStatus _ => natsGo.Status
  | EvConnIsConnected _ => bool
  | EvConnConnectedUrl _ => string
  | EvConnJetStream _ => (JetStreamContext + foreign_error)%type
  | EvStreamInfo _ _ | EvAddStream _ _ | EvUpdateStream _ _ =>
      (natsGo.StreamInfo + foreign_error)%type
  | EvConnDrain _ | EvConnPublishMsg _ _ | EvJsPublishMsg _ _ | EvMsgAck _ =>
      option foreign_error
  | EvConnSubscribe _ _ _ | EvConnQueueSubscribe _ _ _ _
  | EvJsSubscribe _ _ _ _ | EvJsQueueSubscribe _ _ _ _ _ =>
      (Subscription + foreign_error)%type
  | EvMarshal _ _ => (bytes + foreign_error)%type
  | EvUnmarshal _ _ _ => (Any + foreign_error)%type
  | EvHandler _ _ _ | EvErrorHandler _ _ _ => option error
  | EvBinder _ => Any
  | EvTracerStart _ _ _ _ => (context.Context * Span * Header)%type
  | _ => unit
  end.

Definition trace := list event.

(** A program: returns, panics, reads or writes the broker struct, calls a
    collaborator, or sends to / receives from a channel. *)
Inductive prog (A : Type) : Type :=
| Ret (a : A)
| Panic (why : string)
| Get (k : natsBroker -> prog A)
| Modify (f : natsBroker -> natsBroker) (k : prog A)
| Vis (e : event) (k : res e -> prog A)
| ChanSend (ch : Chan) (v : option error) (k : prog A)
| ChanRecv (ch : Chan) (k : option error -> prog A).

Arguments Ret {A} a.
Arguments Panic {A} why.
Arguments Get {A} k.
Arguments Modify {A} f k.
Arguments Vis {A} e k.
Arguments ChanSend {A} ch v k.
Arguments ChanRecv {A} ch k.

Fixpoint bind {A B : Type} (p : prog A) (f : A -> prog B) : prog B :=
  match p with
  | Ret a => f a
  | Panic why => Panic why
  | Get k => Get (fun b => bind (k b) f)
  | Modify g k => Modify g (bind k f)
  | Vis e k => Vis e (fun r => bind (k r) f)
  | ChanSend ch v k => ChanSend ch v (bind k f)
  | ChanRecv ch k => ChanRecv ch (fun v => bind (k v) f)
  end.

Declare Scope prog_scope.
Delimit Scope prog_scope with prog.
Bind Scope prog_scope with prog.

Notation "x <- p ;; q" := (bind p (fun x => q))
  (at level 61, p at next level, right associativity) : prog_scope.
Notation "' pat <- p ;; q" := (bind p (fun x => match x with pat => q end))
  (at level 61, pat pattern, p at next level, right associativity) : prog_scope.
Notation "p ;; q" := (bind p (fun _ => q))
  (at level 61, right associativity) : prog_scope.

Open Scope prog_scope.

Definition ret {A : Type} (a : A) : prog A := Ret a.
Definition get : prog natsBroker := Get (fun b => Ret b).
Definition modify (f : natsBroker -> natsBroker) : prog unit := Modify f (Ret tt).
Definition call (e : event) : prog (res e) := Vis e (fun r => Ret r).
Definition chan_send (ch : Chan) (v : option error) : prog unit :=
  ChanSend ch v (Ret tt).
Definition chan_recv (ch : Chan) : prog (option error) :=
  ChanRecv ch (fun v => Ret v).
Definition when (c : bool) (p : prog unit) : prog unit :=
  if c then p else ret tt.

(** [defer d] in front of a body: [d] runs when the body returns or panics. *)
Fixpoint defer_ {A : Type} (d : prog unit) (p : prog A) : prog A :=
  match p with
  | Ret a => d ;; Ret a
  | Panic why => d ;; Panic why
  | Get k => Get (fun b => defer_ d (k b))
  | Modify g k => Modify g (defer_ d k)
  | Vis e k => Vis e (fun r => defer_ d (k r))
  | ChanSend ch v k => ChanSend ch v (defer_ d k)
  | ChanRecv ch k => ChanRecv ch (fun v => defer_ d (k v))
  end.

(** [v, err := f(); if err != nil { return err }] inside a method whose
    result is an [error]. *)
Definition try_ {T : Type} (p : prog (T + foreign_error))
    (k : T -> prog (option error)) : prog (option error) :=
  bind p (fun r => match r with inl v => k v | inr e => Ret (Some (foreign e)) end).

Notation "x <-? p ;; q" := (try_ p (fun x => q))
  (at level 61, p at next level, right associativity) : prog_scope.

(** ** The adapter (broker/nats.go) *)

Definition NewBroker (opts : list broker.Option) : natsBroker :=
  let options := broker.NewOptionsAndApply opts in
  {| once := false; connected := false; options := options; conn := None;
     natsOpts := natsGo.zeroOptions; jsCtx := None; streamInfo := None;
     subscribers := []; drain := false; closeCh := nilChan;
     streamCfg := natsGo.zeroStreamConfig;
     producerTracer := None; consumerTracer := None |}.

Definition Address : prog string :=
  b <- get ;;
  up <- match conn b with
        | Some c => call (EvConnIsConnected c)
        | None => ret false
        end ;;
  match conn b, up with
  | Some c, true => call (EvConnConnectedUrl c)
  | _, _ =>
      match broker.Addrs (options b) with
      | a :: _ => ret a
      | [] => ret defaultAddr
      end
  end.

Definition Name : string := "NATS".

(** The method [Options] of the broker (the option carrier of the same
    name is further down). *)
Definition natsBroker_Options : prog broker.Options :=
  b <- get ;; ret (options b).

Definition setAddrs (addrs : list string) : list string :=
  let cAddrs :=
    fold_left
      (fun cAddrs addr =>
         if Nat.eqb (String.length addr) 0 then cAddrs
         else
           let addr := if String.prefix "nats://" addr then addr
                       else ("nats://" ++ addr)%string in
           cAddrs ++ [addr])
      addrs [] in
  if Nat.eqb (List.length cAddrs) 0 then [natsGo.DefaultURL] else cAddrs.

(** [b.Once.Do(f)] *)
Definition Once_Do (f : prog unit) : prog unit :=
  b <- get ;;
  if once b then ret tt else (f ;; modify (with_once true)).

Definition setOption (opts : list broker.Option) : prog unit :=
  modify (fun b => with_options (broker.apply opts (options b)) b) ;;
  Once_Do (modify (with_natsOpts natsGo.GetDefaultOptions)) ;;
  b <- get ;;
  match context.Value (broker.Context (options b)) optionsKey with
  | Some (VNatsOptions value) => modify (with_natsOpts value)
  | _ => ret tt
  end ;;
  b <- get ;;
  when (Nat.eqb (List.length (broker.Addrs (options b))) 0)
    (modify (with_options
               (broker.set_Addrs (natsGo.Servers (natsOpts b)) (options b)))) ;;
  b <- get ;;
  when (negb (broker.Secure (options b)))
    (modify (with_options
               (broker.set_Secure (natsGo.Secure (natsOpts b)) (options b)))) ;;
  b <- get ;;
  match broker.TLSConfig_ (options b) with
  | None =>
      modify (with_options
                (broker.set_TLSConfig (natsGo.TLSConfig_ (natsOpts b)) (options b)))
  | Some _ => ret tt
  end ;;
  b <- get ;;
  (* the call's result is dropped: [b.setAddrs(b.options.Addrs)] *)
  let _ := setAddrs (broker.Addrs (options b)) in
  match context.Value (broker.Context (options b)) drainConnectionKey with
  | Some _ =>
      modify (with_drain true) ;;
      id <- call EvMakeChan ;;
      modify (with_closeCh (chanRef id)) ;;
      modify (fun b => with_natsOpts
                (natsGo.set_ClosedCB (Some natsGo.cb_onClose) (natsOpts b)) b) ;;
      modify (fun b => with_natsOpts
                (natsGo.set_AsyncErrorCB (Some natsGo.cb_onAsyncError) (natsOpts b)) b) ;;
      modify (fun b => with_natsOpts
                (natsGo.set_DisconnectedErrCB
                   (Some natsGo.cb_onDisconnectedError) (natsOpts b)) b)
  | None => ret tt
  end ;;
  b <- get ;;
  match context.Value (broker.Context (options b)) jetstreamConfKey with
  | Some (VStreamConfig jetStreamCnf) => modify (with_streamCfg jetStreamCnf)
  | _ => ret tt
  end.

Definition Init (opts : list broker.Option) : prog (option error) :=
  setOption opts ;;
  b <- get ;;
  when (Nat.ltb 0 (List.length (broker.Tracings (options b))))
    (modify (with_producerTracer
               (Some (tracing.NewTracer tracing.SpanKindProducer "nats-producer"
                        (broker.Tracings (options b))))) ;;
     modify (with_consumerTracer
               (Some (tracing.NewTracer tracing.SpanKindConsumer "nats-consumer"
                        (broker.Tracings (options b)))))) ;;
  ret None.

Definition Connect : prog (option error) :=
  call EvLock ;;
  defer_ (call EvUnlock)
    (b <- get ;;
     if connected b then ret None
     else
       status <- match conn b with
                 | Some c => call (EvConnStatus c)
                 | None => ret natsGo.CLOSED
                 end ;;
       match status with
       | natsGo.CONNECTED | natsGo.RECONNECTING | natsGo.CONNECTING =>
           modify (with_connected true) ;;
           ret None
       | _ => (* DISCONNECTED or CLOSED or DRAINING *)
           let opts := natsOpts b in
           let opts := natsGo.set_Servers (broker.Addrs (options b)) opts in
           let opts := natsGo.set_Secure (broker.Secure (options b)) opts in
           let opts := natsGo.set_TLSConfig (broker.TLSConfig_ (options b)) opts in
           let opts := match broker.TLSConfig_ (options b) with
                       | Some _ => natsGo.set_Secure true opts
                       | None => opts
                       end in
           c <-? call (EvOptsConnect opts) ;;
           r <- (if negb (String.eqb (natsGo.Name (streamCfg b)) "") then
                   r <- call (EvConnJetStream c) ;;
                   modify (with_jsCtx (match r with inl js => Some js | inr _ => None end)) ;;
                   js <-? ret r ;;
                   r <- call (EvStreamInfo js (natsGo.Name (streamCfg b))) ;;
                   _ <-? match r with
                         | inr e =>
                             if errors_Is e ErrStreamNotFound then
                               call (EvAddStream js (streamCfg b))
                             else ret (inr e)
                         | inl s0 => ret (inl s0)
                         end ;;
                   s1 <-? call (EvUpdateStream js (streamCfg b)) ;;
                   modify (with_streamInfo (Some s1)) ;;
                   ret None
                 else ret None) ;;
           match r with
           | Some e => ret (Some e)
           | None =>
               modify (with_conn (Some c)) ;;
               modify (with_connected true) ;;
               ret None
           end
       end).

Definition Disconnect : prog (option error) :=
  call EvLock ;;
  defer_ (call EvUnlock)
    (b <- get ;;
     when (drain b)
       (match conn b with
        | Some c => _ <- call (EvConnDrain c) ;; ret tt
        | None => ret tt
        end ;;
        chan_send (closeCh b) None) ;;
     call EvSubscribersClear ;;
     modify (with_subscribers []) ;;
     b <- get ;;
     match conn b with
     | Some c => call (EvConnClose c)
     | None => ret tt
     end ;;
     modify (with_connected false) ;;
     ret None).

(** *** Tracing helpers *)

Definition producerAttrs (subject : string) : list (string * string) :=
  [("messaging.system", "nats");
   ("messaging.destination_kind", "topic");
   ("messaging.destination", subject)].

Definition consumerAttrs (subject : string) : list (string * string) :=
  [("messaging.system", "nats");
   ("messaging.destination_kind", "topic");
   ("messaging.destination", subject);
   ("messaging.operation", "receive")].

(** The tracer reaches the message through the carrier, so the message
    comes back with whatever headers the tracer left on it. *)
Definition with_Header (h : Header) (msg : natsGo.Msg) : natsGo.Msg :=
  {| natsGo.Subject := natsGo.Subject msg; natsGo.Data := natsGo.Data msg;
     natsGo.Header_ := h |}.

Definition with_Data (d : bytes) (msg : natsGo.Msg) : natsGo.Msg :=
  {| natsGo.Subject := natsGo.Subject msg; natsGo.Data := d;
     natsGo.Header_ := natsGo.Header_ msg |}.

Definition startProducerSpan (ctx : context.Context) (msg : natsGo.Msg)
  : prog (option Span * natsGo.Msg) :=
  b <- get ;;
  match producerTracer b with
  | None => ret (None, msg)
  | Some tracer =>
      let carrier := NewMessageCarrier msg in
      let attrs := producerAttrs (natsGo.Subject msg) in
      '(_, span, h) <- call (EvTracerStart tracer ctx carrier attrs) ;;
      ret (Some span, with_Header h msg)
  end.

Definition finishProducerSpan (span : option Span) (e : option error) : prog unit :=
  b <- get ;;
  match producerTracer b with
  | None => ret tt
  | Some tracer => call (EvTracerEnd tracer context.Background span e)
  end.

Definition startConsumerSpan (ctx : context.Context) (msg : natsGo.Msg)
  : prog (context.Context * option Span * natsGo.Msg) :=
  b <- get ;;
  match consumerTracer b with
  | None => ret (ctx, None, msg)
  | Some tracer =>
      let carrier := NewMessageCarrier msg in
      let attrs := consumerAttrs (natsGo.Subject msg) in
      '(ctx', span, h) <- call (EvTracerStart tracer ctx carrier attrs) ;;
      ret (ctx', Some span, with_Header h msg)
  end.

Definition finishConsumerSpan (span : option Span) : prog unit :=
  b <- get ;;
  match consumerTracer b with
  | None => ret tt
  | Some tracer => call (EvTracerEnd tracer context.Background span None)
  end.

(** *** Publish *)

Definition publish (ctx : context.Context) (topic : string) (buf : bytes)
    (opts : list broker.PublishOption) : prog (option error) :=
  call EvRLock ;;
  defer_ (call EvRUnlock)
    (b <- get ;;
     match conn b with
     | None => ret (Some (errors_New "not connected"))
     | Some c =>
         let options :=
           fold_left (fun acc o => o acc) opts {| broker.pContext := ctx |} in
         let m := natsGo.NewMsg topic in
         let m := with_Data buf m in
         let m :=
           match context.Value (broker.pContext options) headersKey with
           | Some (VHeaders headers) =>
               fold_left
                 (fun m '(k, v) =>
                    fold_left
                      (fun m vv => with_Header (Header_Add (natsGo.Header_ m) k vv) m)
                      v m)
                 headers m
           | _ => m
           end in
         '(span, m) <- startProducerSpan (broker.pContext options) m ;;
         e <- match streamInfo b with
              | Some _ =>
                  match jsCtx b with
                  | Some js => call (EvJsPublishMsg js m)
                  | None => Panic "nil JetStreamContext"
                  end
              | None => call (EvConnPublishMsg c m)
              end ;;
         let e := option_map foreign e in
         finishProducerSpan span e ;;
         ret e
     end).

Definition Publish (ctx : context.Context) (topic : string) (msg : Any)
    (opts : list broker.PublishOption) : prog (option error) :=
  b <- get ;;
  buf <-? call (EvMarshal (broker.Codec (options b)) msg) ;;
  publish ctx topic buf opts.

(** *** Subscribe *)

Definition with_Body (v : Any) (m : broker.Message) : broker.Message :=
  {| broker.Headers := broker.Headers m; broker.Body := v |}.

Definition with_err (e : option error) (pub : publication) : publication :=
  {| t := t pub; m := m pub; err := e |}.

(** The per-message closure [fn] of [Subscribe]; [cb] is what it captured. *)
Definition fn (cb : callback) (msg : natsGo.Msg) : prog unit :=
  let handler := cb_handler cb in
  let binder := cb_binder cb in
  let subOptions := cb_options cb in
  let m := {| broker.Headers := natsHeaderToMap (natsGo.Header_ msg);
              broker.Body := AnyNil |} in
  '(ctx, span, msg) <- startConsumerSpan (broker.sContext subOptions) msg ;;
  b <- get ;;
  let eh := broker.ErrorHandler (options b) in
  body <- match binder with
          | Some bd =>
              match broker.Codec (options b) with
              | None => Panic "nil Codec"
              | Some codec =>
                  if String.eqb (encoding.Name codec) kProto.Name then
                    v <- call (EvBinder bd) ;;
                    match v with
                    | AnyProto _ => ret v
                    | _ => Panic "interface conversion: not a proto.Message"
                    end
                  else call (EvBinder bd)
              end
          | None => ret (AnyBytes (natsGo.Data msg))
          end ;;
  let m := with_Body body m in
  b <- get ;;
  r <- call (EvUnmarshal (broker.Codec (options b)) (natsGo.Data msg) (broker.Body m)) ;;
  match r with
  | inr e =>
      let pub := {| t := natsGo.Subject msg; m := m; err := Some (foreign e) |} in
      call (EvLogErrorf "[nats]: unmarshal message failed: %v" (foreign e)) ;;
      match eh with
      | Some h => _ <- call (EvErrorHandler h (broker.Context (options b)) pub) ;; ret tt
      | None => ret tt
      end
      (* return *)
  | inl body' =>
      let pub := {| t := natsGo.Subject msg; m := with_Body body' m; err := None |} in
      r <- call (EvHandler handler ctx pub) ;;
      match r with
      | Some e =>
          let pub := with_err (Some e) pub in
          call (EvLogErrorf "[nats]: process message failed: %v" e) ;;
          match eh with
          | Some h => _ <- call (EvErrorHandler h (broker.Context (options b)) pub) ;; ret tt
          | None => ret tt
          end
      | None => ret tt
      end ;;
      when (broker.AutoAck subOptions)
        (r <- call (EvMsgAck msg) ;;
         match r with
         | Some e => call (EvLogErrorf "[nats]: unable to commit msg: %v" (foreign e))
         | None => ret tt
         end) ;;
      finishConsumerSpan span
  end.

Definition subOptsOf (ctx : context.Context) : list natsGo.SubOpt :=
  let subOpts := [] in
  let subOpts := match context.Value ctx deliverAllKey with
                 | Some _ => subOpts ++ [natsGo.DeliverAll]
                 | None => subOpts
                 end in
  let subOpts := match context.Value ctx deliverNewKey with
                 | Some _ => subOpts ++ [natsGo.DeliverNew]
                 | None => subOpts
                 end in
  let subOpts := match context.Value ctx deliverLastKey with
                 | Some _ => subOpts ++ [natsGo.DeliverLast]
                 | None => subOpts
                 end in
  subOpts.

Definition Subscribe (topic : string) (handler : Handler) (binder : option Binder)
    (opts : list broker.SubscribeOption)
  : prog (option subscriber * option error) :=
  call EvRLock ;;
  b <- get ;;
  match conn b with
  | None =>
      call EvRUnlock ;;
      ret (None, Some (errors_New "not connected"))
  | Some _ =>
      call EvRUnlock ;;
      let options :=
        fold_left (fun acc o => o acc) opts
          {| broker.AutoAck := true; broker.Queue := "";
             broker.sContext := context.Background |} in
      let subs := {| s := None; sub_options := options |} in
      let fn := {| cb_handler := handler; cb_binder := binder;
                   cb_options := options |} in
      call EvRLock ;;
      b <- get ;;
      r <- match streamInfo b with
           | Some _ =>
               let subOpts := subOptsOf (broker.sContext options) in
               match jsCtx b with
               | None => Panic "nil JetStreamContext"
               | Some js =>
                   if Nat.ltb 0 (String.length (broker.Queue options)) then
                     call (EvJsQueueSubscribe js topic (broker.Queue options) fn subOpts)
                   else
                     call (EvJsSubscribe js topic fn [])
               end
           | None =>
               match conn b with
               | None => Panic "nil Conn"
               | Some c =>
                   if Nat.ltb 0 (String.length (broker.Queue options)) then
                     call (EvConnQueueSubscribe c topic (broker.Queue options) fn)
                   else
                     call (EvConnSubscribe c topic fn)
               end
           end ;;
      call EvRUnlock ;;
      match r with
      | inr e => ret (None, Some (foreign e))
      | inl sub =>
          let subs := {| s := Some sub; sub_options := sub_options subs |} in
          call (EvSubscribersAdd topic subs) ;;
          modify (fun b => with_subscribers (subscribers b ++ [(topic, subs)]) b) ;;
          ret (Some subs, None)
      end
  end.

(** *** Lifecycle callbacks handed to the client *)

Definition onClose : prog unit :=
  b <- get ;; chan_send (closeCh b) None.

Definition onAsyncError (e : option foreign_error) : prog unit :=
  match e with
  | Some e' =>
      if errors_Is e' ErrDrainTimeout then
        b <- get ;; chan_send (closeCh b) (Some (foreign e'))
      else ret tt
  | None => ret tt
  end.

Definition onDisconnectedError (e : option foreign_error) : prog unit :=
  b <- get ;; chan_send (closeCh b) (option_map foreign e).

(** *** Option carriers *)

Definition Options (opts : natsGo.Options) : broker.Option :=
  broker.OptionContextWithValue optionsKey (VNatsOptions opts).

Definition DrainConnection : broker.Option :=
  broker.OptionContextWithValue drainConnectionKey VStruct.

Definition WithJetStream (streamCnf : natsGo.StreamConfig) : broker.Option :=
  broker.OptionContextWithValue jetstreamConfKey (VStreamConfig streamCnf).

Definition WithHeaders (h : Header) : broker.PublishOption :=
  broker.PublishContextWithValue headersKey (VHeaders h).

Definition WithDeliverAll : broker.SubscribeOption :=
  broker.SubscribeContextWithValue deliverAllKey VStruct.

Definition WithDeliverNew : broker.SubscribeOption :=
  broker.SubscribeContextWithValue deliverNewKey VStruct.

Definition WithDeliverLast : broker.SubscribeOption :=
  broker.SubscribeContextWithValue deliverLastKey VStruct.

(** ** Semantics *)

(** The collaborators during one call: an oracle that answers every event.
    Within one call the adapter never issues the same request twice with a
    result that matters, and each call of a sequence gets an oracle of its
    own, so answers may change from call to call. *)
Definition World := forall e : event, res e.

(** How a call ends: it returns, it panics, or the goroutine is parked on a
    channel operation for which no partner exists. *)
Inductive outcome (A : Type) : Type :=
| Returns (a : A) (b : natsBroker) (tr : trace)
| Panics (why : string) (b : natsBroker) (tr : trace)
| Blocks (b : natsBroker) (tr : trace).

Arguments Returns {A} a b tr.
Arguments Panics {A} why b tr.
Arguments Blocks {A} b tr.

Definition after {A : Type} (pre : trace) (o : outcome A) : outcome A :=
  match o with
  | Returns a b tr => Returns a b (pre ++ tr)
  | Panics why b tr => Panics why b (pre ++ tr)
  | Blocks b tr => Blocks b (pre ++ tr)
  end.

(** One goroutine running a call on its own, from broker state [b].  The
    trace lists the events of this call in the order they happen. *)
Fixpoint run {A : Type} (W : World) (p : prog A) (b : natsBroker) : outcome A :=
  match p with
  | Ret a => Returns a b []
  | Panic why => Panics why b []
  | Get k => run W (k b) b
  | Modify f k => run W k (f b)
  | Vis e k => after [e] (run W (k (W e)) b)
  | ChanSend _ _ _ => Blocks b []
  | ChanRecv _ _ => Blocks b []
  end.

Definition final {A : Type} (o : outcome A) : natsBroker :=
  match o with
  | Returns _ b _ | Panics _ b _ | Blocks b _ => b
  end.

Definition events {A : Type} (o : outcome A) : trace :=
  match o with
  | Returns _ _ tr | Panics _ _ tr | Blocks _ tr => tr
  end.

Definition result {A : Type} (o : outcome A) : option A :=
  match o with
  | Returns a _ _ => Some a
  | _ => None
  end.

(** *** Goroutines sharing the broker

    A pool is the shared struct, the events so far and the goroutines that
    are running.  A goroutine steps on its own for everything but channel
    operations; an unbuffered channel hands a value over when one goroutine
    is at a send and another one at a receive on the same channel.  Taking
    and releasing the mutex are events like any other: the pools considered
    below hold a single goroutine that locks. *)
Record pool : Type := {
  shared : natsBroker;
  hist : trace;
  threads : list (prog unit)
}.

Definition local_step (W : World) (b : natsBroker) (p : prog unit)
  : option (natsBroker * trace * prog unit) :=
  match p with
  | Get k => Some (b, [], k b)
  | Modify f k => Some (f b, [], k)
  | Vis e k => Some (b, [e], k (W e))
  | _ => None
  end.

Inductive step (W : World) : pool -> pool -> Prop :=
| step_local : forall b h l p r b' es p',
    local_step W b p = Some (b', es, p') ->
    step W {| shared := b; hist := h; threads := l ++ p :: r |}
           {| shared := b'; hist := h ++ es; threads := l ++ p' :: r |}
| step_send_recv : forall b h l mid r id v k k',
    step W {| shared := b; hist := h;
              threads := l ++ ChanSend (chanRef id) v k :: mid
                           ++ ChanRecv (chanRef id) k' :: r |}
           {| shared := b; hist := h;
              threads := l ++ k :: mid ++ k' v :: r |}
| step_recv_send : forall b h l mid r id v k k',
    step W {| shared := b; hist := h;
              threads := l ++ ChanRecv (chanRef id) k' :: mid
                           ++ ChanSend (chanRef id) v k :: r |}
           {| shared := b; hist := h;
              threads := l ++ k' v :: mid ++ k :: r |}.

Inductive steps (W : World) : pool -> pool -> Prop :=
| steps_refl : forall P, steps W P P
| steps_snoc : forall P Q R, steps W P Q -> step W Q R -> steps W P R.

(** A scheduler one can run: goroutine [i] takes its next step if it can
    take one on its own, else the pool stays as it is. *)
Fixpoint step_at (W : World) (b : natsBroker) (ts : list (prog unit)) (i : nat)
  : option (natsBroker * trace * list (prog unit)) :=
  match ts, i with
  | [], _ => None
  | p :: r, O =>
      match local_step W b p with
      | Some (b', es, p') => Some (b', es, p' :: r)
      | None => None
      end
  | p :: r, S i' =>
      match step_at W b r i' with
      | Some (b', es, r') => Some (b', es, p :: r')
      | None => None
      end
  end.

Definition sched (W : World) (P : pool) (i : nat) : pool :=
  match step_at W (shared P) (threads P) i with
  | Some (b', es, ts') => {| shared := b'; hist := hist P ++ es; threads := ts' |}
  | None => P
  end.

Definition schedule (W : World) (P : pool) (order : list nat) : pool :=
  fold_left (sched W) order P.

(** A call started as a goroutine of its own. *)
Definition go {A : Type} (p : prog A) : prog unit := p ;; ret tt.

(** *** Sample collaborators *)

(** A world in which every collaborator succeeds. *)
Definition calm : World :=
  fun e =>
    match e as e' return res e' with
    | EvLock | EvUnlock | EvRLock | EvRUnlock => tt
    | EvMakeChan => 1
    | EvOptsConnect _ => inl (connPtr 1)
    | EvConnStatus _ => natsGo.CONNECTED
    | EvConnIsConnected _ => true
    | EvConnConnectedUrl _ => natsGo.DefaultURL
    | EvConnJetStream _ => inl (jsContext 1)
    | EvStreamInfo _ name =>
        inl {| natsGo.Config :=
                 {| natsGo.Name := name; natsGo.Subjects := [];
                    natsGo.Retention := natsGo.LimitsPolicy |} |}
    | EvAddStream _ cfg | EvUpdateStream _ cfg => inl {| natsGo.Config := cfg |}
    | EvConnDrain _ => None
    | EvConnClose _ => tt
    | EvConnPublishMsg _ _ | EvJsPublishMsg _ _ => None
    | EvConnSubscribe _ _ _ | EvConnQueueSubscribe _ _ _ _
    | EvJsSubscribe _ _ _ _ | EvJsQueueSubscribe _ _ _ _ _ =>
        inl (subscriptionPtr 1)
    | EvMsgAck _ => None
    | EvMarshal _ msg =>
        match msg with
        | AnyBytes d => inl d
        | _ => inl []
        end
    | EvUnmarshal _ _ target => inl target
    | EvSubscribersAdd _ _ => tt
    | EvSubscribersClear => tt
    | EvLogErrorf _ _ => tt
    | EvHandler _ _ _ | EvErrorHandler _ _ _ => None
    | EvBinder _ => AnyProto 1
    | EvTracerStart _ ctx carrier _ => (ctx, spanRef 1, natsGo.Header_ carrier)
    | EvTracerEnd _ _ _ _ => tt
    end.

Definition marshal_fails : World :=
  fun e =>
    match e as e' return res e' with
    | EvMarshal _ _ => inr (ErrExternal "message is nil")
    | e' => calm e'
    end.

Definition decode_fails : World :=
  fun e =>
    match e as e' return res e' with
    | EvUnmarshal _ _ _ => inr (ErrExternal "invalid character")
    | e' => calm e'
    end.

(** The handler rejects the message and the acknowledgement fails too. *)
Definition handler_fails : World :=
  fun e =>
    match e as e' return res e' with
    | EvHandler _ _ _ => Some (foreign (ErrExternal "handler failed"))
    | EvMsgAck _ => Some (ErrExternal "nats: message was already acknowledged")
    | e' => calm e'
    end.

(** ** Vocabulary of the properties *)

(** Calls into the NATS client: everything that can reach the network. *)
Definition network_io (e : event) : bool :=
  match e with
  | EvOptsConnect _ | EvConnStatus _ | EvConnIsConnected _
  | EvConnConnectedUrl _ | EvConnJetStream _ | EvStreamInfo _ _
  | EvAddStream _ _ | EvUpdateStream _ _ | EvConnDrain _ | EvConnClose _
  | EvConnPublishMsg _ _ | EvJsPublishMsg _ _ | EvConnSubscribe _ _ _
  | EvConnQueueSubscribe _ _ _ _ | EvJsSubscribe _ _ _ _
  | EvJsQueueSubscribe _ _ _ _ _ | EvMsgAck _ => true
  | _ => false
  end.

(** The closure a native subscribe call registers. *)
Definition callback_of (e : event) : option callback :=
  match e with
  | EvConnSubscribe _ _ fn | EvConnQueueSubscribe _ _ _ fn
  | EvJsSubscribe _ _ fn _ | EvJsQueueSubscribe _ _ _ fn _ => Some fn
  | _ => None
  end.

Definition is_subscribe_call (e : event) : bool :=
  match callback_of e with Some _ => true | None => false end.

Definition is_span_end (e : event) : bool :=
  match e with EvTracerEnd _ _ _ _ => true | _ => false end.

Definition is_span_start (e : event) : bool :=
  match e with EvTracerStart _ _ _ _ => true | _ => false end.

Definition is_ack (e : event) : bool :=
  match e with EvMsgAck _ => true | _ => false end.

Definition is_handler_call (e : event) : bool :=
  match e with EvHandler _ _ _ => true | _ => false end.

Definition is_error_handler_call (e : event) : bool :=
  match e with EvErrorHandler _ _ _ => true | _ => false end.

Definition is_open (e : event) : bool :=
  match e with EvOptsConnect _ => true | _ => false end.

(** [e1] happens somewhere before [e2] in a trace. *)
Definition precedes (e1 e2 : event) (tr : trace) : Prop :=
  exists l1 l2 l3, tr = l1 ++ e1 :: l2 ++ e2 :: l3.

(** The message of a callback run fails to decode / decodes: the codec was
    asked and this is what it answered. *)
Definition decode_failed {A : Type} (W : World) (o : outcome A) (e : foreign_error) : Prop :=
  exists codec data target,
    In (EvUnmarshal codec data target) (events o) /\
    W (EvUnmarshal codec data target) = inr e.

Definition decoded {A : Type} (W : World) (o : outcome A) (body : Any) : Prop :=
  exists codec data target,
    In (EvUnmarshal codec data target) (events o) /\
    W (EvUnmarshal codec data target) = inl body.

(** The user handler ran and this is the error it returned. *)
Definition handler_failed {A : Type} (W : World) (o : outcome A) (e : error) : Prop :=
  exists h ctx pub,
    In (EvHandler h ctx pub) (events o) /\ W (EvHandler h ctx pub) = Some e.

(** What the callback hands to the codec as decode target (the binder
    branch of [fn]): the raw data without a binder, the binder's value with
    one; [None] when the callback panics before it gets to decode. *)
Definition decode_target (W : World) (b : natsBroker) (cb : callback)
    (msg : natsGo.Msg) : option Any :=
  match cb_binder cb with
  | Some bd =>
      match broker.Codec (options b) with
      | None => None
      | Some codec =>
          if String.eqb (encoding.Name codec) kProto.Name then
            match W (EvBinder bd) with
            | AnyProto _ => Some (W (EvBinder bd))
            | _ => None
            end
          else Some (W (EvBinder bd))
      end
  | None => Some (AnyBytes (natsGo.Data msg))
  end.

(** A subscribe option that leaves the auto-acknowledge setting alone. *)
Definition keeps_AutoAck (o : broker.SubscribeOption) : Prop :=
  forall so, broker.AutoAck (o so) = broker.AutoAck so.

(** The connected flag is only ever raised on a broker that holds a
    connection handle. *)
Definition Inv (b : natsBroker) : Prop :=
  connected b = true -> conn b <> None.

(** Brokers on which [Connect] has not been called: fresh ones, and what the
    other methods make of them. *)
Inductive before_connect : natsBroker -> Prop :=
| bc_new : forall opts, before_connect (NewBroker opts)
| bc_Init : forall W opts b,
    before_connect b -> before_connect (final (run W (Init opts) b))
| bc_Publish : forall W ctx topic msg opts b,
    before_connect b ->
    before_connect (final (run W (Publish ctx topic msg opts) b))
| bc_Subscribe : forall W topic h binder opts b,
    before_connect b ->
    before_connect (final (run W (Subscribe topic h binder opts) b))
| bc_Disconnect : forall W b,
    before_connect b -> before_connect (final (run W Disconnect b)).

(** Every broker the methods can produce from a fresh one. *)
Inductive reachable : natsBroker -> Prop :=
| re_new : forall opts, reachable (NewBroker opts)
| re_Init : forall W opts b,
    reachable b -> reachable (final (run W (Init opts) b))
| re_Connect : forall W b,
    reachable b -> reachable (final (run W Connect b))
| re_Disconnect : forall W b,
    reachable b -> reachable (final (run W Disconnect b))
| re_Publish : forall W ctx topic msg opts b,
    reachable b ->
    reachable (final (run W (Publish ctx topic msg opts) b))
| re_Subscribe : forall W topic h binder opts b,
    reachable b ->
    reachable (final (run W (Subscribe topic h binder opts) b)).

(** Every write of a program relates the struct before to the struct after. *)
Inductive keeps (R : natsBroker -> natsBroker -> Prop) {A : Type} : prog A -> Prop :=
| keeps_Ret : forall a, keeps R (Ret a)
| keeps_Panic : forall why, keeps R (Panic why)
| keeps_Get : forall k, (forall b, keeps R (k b)) -> keeps R (Get k)
| keeps_Modify : forall f k,
    (forall b, R b (f b)) -> keeps R k -> keeps R (Modify f k)
| keeps_Vis : forall e k, (forall r, keeps R (k r)) -> keeps R (Vis e k)
| keeps_ChanSend : forall ch v k, keeps R k -> keeps R (ChanSend ch v k)
| keeps_ChanRecv : forall ch k, (forall v, keeps R (k v)) -> keeps R (ChanRecv ch k).

(** What every method but [Connect] guarantees: the connection handle is
    left alone and the connected flag is not raised. *)
Definition quiet_on_conn (b b' : natsBroker) : Prop :=
  conn b' = conn b /\ (connected b' = true -> connected b = true).

(** *** The drain wait *)

(** The three callbacks registered on the connection.  The channel is a
    private field of the broker: besides [Disconnect], they are the only
    code that touches it. *)
Definition is_callback (p : prog unit) : Prop :=
  p = onClose \/ (exists e, p = onAsyncError e) \/ (exists e, p = onDisconnectedError e).

(** An event that neither clears the registry nor closes a connection. *)
Definition harmless (e : event) : Prop :=
  e <> EvSubscribersClear /\ forall c, e <> EvConnClose c.

(** A goroutine that never writes the struct, never receives, and never
    clears the registry or closes a connection. *)
Inductive bystander : prog unit -> Prop :=
| by_Ret : forall u, bystander (Ret u)
| by_Panic : forall why, bystander (Panic why)
| by_Get : forall k, (forall b, bystander (k b)) -> bystander (Get k)
| by_Vis : forall e k,
    harmless e -> (forall r, bystander (k r)) -> bystander (Vis e k)
| by_ChanSend : forall ch v k, bystander (ChanSend ch v k).

(** A goroutine that, on struct [b], reaches a channel send before it
    writes, receives, returns, clears the registry or closes a connection. *)
Inductive heads_for_send (b : natsBroker) : prog unit -> Prop :=
| hs_Get : forall k, heads_for_send b (k b) -> heads_for_send b (Get k)
| hs_Vis : forall e k,
    harmless e -> (forall r, heads_for_send b (k r)) -> heads_for_send b (Vis e k)
| hs_ChanSend : forall ch v k, heads_for_send b (ChanSend ch v k).

(** The pool while [Disconnect] (the first goroutine) waits on struct [b]:
    the struct is untouched, nothing was cleared or closed, [Disconnect] is
    still heading for its send and everybody else is a bystander. *)
Definition drain_wait (b : natsBroker) (P : pool) : Prop :=
  shared P = b /\
  Forall harmless (hist P) /\
  exists main rest,
    threads P = main :: rest /\ heads_for_send b main /\ Forall bystander rest.

(** The drain wait as the specification words it: [Disconnect] receives the
    signal the callbacks send.  Kept next to the code's [Disconnect] for
    comparison only. *)
Definition Disconnect_as_specified : prog (option error) :=
  call EvLock ;;
  defer_ (call EvUnlock)
    (b <- get ;;
     when (drain b)
       (match conn b with
        | Some c => _ <- call (EvConnDrain c) ;; ret tt
        | None => ret tt
        end ;;
        _ <- chan_recv (closeCh b) ;; ret tt) ;;
     call EvSubscribersClear ;;
     modify (with_subscribers []) ;;
     b <- get ;;
     match conn b with
     | Some c => call (EvConnClose c)
     | None => ret tt
     end ;;
     modify (with_connected false) ;;
     ret None).

(** *** Sample inputs *)

Definition orders : natsGo.StreamConfig :=
  {| natsGo.Name := "orders"; natsGo.Subjects := ["orders.*"];
     natsGo.Retention := natsGo.LimitsPolicy |}.

(** A broker connected with a stream configured. *)
Definition b_stream : natsBroker :=
  final (run calm (Init [WithJetStream orders] ;; Connect) (NewBroker [])).

(** A broker connected with drain-on-disconnect. *)
Definition b_drain : natsBroker :=
  final (run calm (Init [DrainConnection] ;; Connect) (NewBroker [])).

(** A broker connected with tracing and an error handler configured. *)
Definition b_traced : natsBroker :=
  final (run calm (Init [broker.WithGlobalTracerProvider;
                         broker.WithErrorHandler (handlerFn 9)] ;; Connect)
           (NewBroker [])).

(** A broker connected without any extra option. *)
Definition b_plain : natsBroker :=
  final (run calm (Init [] ;; Connect) (NewBroker [])).

(** The closure of a subscription with the default subscribe options and no
    binder. *)
Definition cb_plain : callback :=
  {| cb_handler := handlerFn 1; cb_binder := None;
     cb_options := {| broker.AutoAck := true; broker.Queue := "";
                      broker.sContext := context.Background |} |}.

Definition order_created : natsGo.Msg :=
  {| natsGo.Subject := "orders.created";
     natsGo.Data := list_byte_of_string "id=1";
     natsGo.Header_ := [] |}.

(** ** Further vocabulary *)

(** The server cannot be reached. *)
Definition dial_fails : World :=
  fun e =>
    match e as e' return res e' with
    | EvOptsConnect _ => inr (ErrExternal "nats: no servers available for connection")
    | e' => calm e'
    end.

(** The stream does not exist yet: the lookup reports it missing. *)
Definition stream_missing : World :=
  fun e =>
    match e as e' return res e' with
    | EvStreamInfo _ _ => inr ErrStreamNotFound
    | e' => calm e'
    end.

(** The options [Connect] dials with, as it assembles them from the struct. *)
Definition dial_options (b : natsBroker) : natsGo.Options :=
  {| natsGo.Servers := broker.Addrs (options b);
     natsGo.Secure :=
       match broker.TLSConfig_ (options b) with
       | Some _ => true
       | None => broker.Secure (options b)
       end;
     natsGo.TLSConfig_ := broker.TLSConfig_ (options b);
     natsGo.ClosedCB := natsGo.ClosedCB (natsOpts b);
     natsGo.AsyncErrorCB := natsGo.AsyncErrorCB (natsOpts b);
     natsGo.DisconnectedErrCB := natsGo.DisconnectedErrCB (natsOpts b) |}.

Definition is_stream_call (e : event) : bool :=
  match e with
  | EvConnJetStream _ | EvStreamInfo _ _ | EvAddStream _ _
  | EvUpdateStream _ _ => true
  | _ => false
  end.

Definition is_mutex_event (e : event) : bool :=
  match e with
  | EvLock | EvUnlock | EvRLock | EvRUnlock => true
  | _ => false
  end.

(** A program that neither panics nor touches a channel, and whose events
    all satisfy [Q]. *)
Inductive straight (Q : event -> Prop) {A : Type} : prog A -> Prop :=
| st_Ret : forall a, straight Q (Ret a)
| st_Get : forall k, (forall b, straight Q (k b)) -> straight Q (Get k)
| st_Modify : forall f k, straight Q k -> straight Q (Modify f k)
| st_Vis : forall e k, Q e -> (forall r, straight Q (k r)) -> straight Q (Vis e k).

(** What [Init] leaves alone: the connection, the stream handles and the
    registry. *)
Definition same_wiring (b b' : natsBroker) : Prop :=
  conn b' = conn b /\ connected b' = connected b /\ jsCtx b' = jsCtx b /\
  streamInfo b' = streamInfo b /\ subscribers b' = subscribers b.

(** What every method but [Init] leaves alone: the drain flag and its
    channel. *)
Definition same_drain (b b' : natsBroker) : Prop :=
  drain b' = drain b /\ closeCh b' = closeCh b.

(** The tracers [Init] installs when tracing options are configured. *)
Definition with_tracers (b : natsBroker) : natsBroker :=
  if Nat.ltb 0 (List.length (broker.Tracings (options b))) then
    with_consumerTracer
      (Some (tracing.NewTracer tracing.SpanKindConsumer "nats-consumer"
               (broker.Tracings (options b))))
      (with_producerTracer
         (Some (tracing.NewTracer tracing.SpanKindProducer "nats-producer"
                  (broker.Tracings (options b))))
         b)
  else b.

(** The drain branch of [setOption] has run: the flag is raised, the channel
    is the one just made and the three callbacks are registered. *)
Definition drain_armed (W : World) (b : natsBroker) : Prop :=
  drain b = true /\
  closeCh b = chanRef (W EvMakeChan) /\
  natsGo.ClosedCB (natsOpts b) = Some natsGo.cb_onClose /\
  natsGo.AsyncErrorCB (natsOpts b) = Some natsGo.cb_onAsyncError /\
  natsGo.DisconnectedErrCB (natsOpts b) = Some natsGo.cb_onDisconnectedError.

(** The headers loop of [publish]: every value of every key is added to the
    message header, in order. *)
Definition addHeaders (headers : Header) (m : natsGo.Msg) : natsGo.Msg :=
  fold_left
    (fun m '(k, v) =>
       fold_left
         (fun m vv => with_Header (Header_Add (natsGo.Header_ m) k vv) m)
         v m)
    headers m.

(** The publish options after the caller's options ran. *)
Definition publishOptionsOf (ctx : context.Context)
    (opts : list broker.PublishOption) : broker.PublishOptions :=
  fold_left (fun acc o => o acc) opts {| broker.pContext := ctx |}.

(** The message [publish] builds before it starts the producer span. *)
Definition outbound (ctx : context.Context) (topic : string) (buf : bytes)
    (opts : list broker.PublishOption) : natsGo.Msg :=
  let m := with_Data buf (natsGo.NewMsg topic) in
  match context.Value (broker.pContext (publishOptionsOf ctx opts)) headersKey with
  | Some (VHeaders headers) => addHeaders headers m
  | _ => m
  end.

(** Read locks taken and not yet released at the end of a trace. *)
Definition rlocks_held (tr : trace) : nat :=
  fold_left
    (fun n e =>
       match e with
       | EvRLock => S n
       | EvRUnlock => Nat.pred n
       | _ => n
       end)
    tr 0.

Definition is_publish_call (e : event) : bool :=
  match e with
  | EvConnPublishMsg _ _ | EvJsPublishMsg _ _ => true
  | _ => false
  end.

Definition is_tracer_call (e : event) : bool :=
  match e with
  | EvTracerStart _ _ _ _ | EvTracerEnd _ _ _ _ => true
  | _ => false
  end.

(** A header entry that carries at least one value. *)
Definition has_values (kv : string * list string) : bool :=
  match snd kv with
  | [] => false
  | _ :: _ => true
  end.

(** The subscription the client handed back for a native subscribe call. *)
Definition subscription_of (W : World) (e : event) : option Subscription :=
  match e as e' return res e' -> option Subscription with
  | EvConnSubscribe _ _ _ | EvConnQueueSubscribe _ _ _ _
  | EvJsSubscribe _ _ _ _ | EvJsQueueSubscribe _ _ _ _ _ =>
      fun r => match r with inl sub => Some sub | inr _ => None end
  | _ => fun _ => None
  end (W e).

Definition is_registry_add (e : event) : bool :=
  match e with EvSubscribersAdd _ _ => true | _ => false end.

(** The subscribe options after the caller's options ran on the defaults. *)
Definition subscribeOptionsOf (opts : list broker.SubscribeOption)
  : broker.SubscribeOptions :=
  fold_left (fun acc o => o acc) opts
    {| broker.AutoAck := true; broker.Queue := "";
       broker.sContext := context.Background |}.

Definition is_decode_call (e : event) : bool :=
  match e with EvUnmarshal _ _ _ => true | _ => false end.

(** The binder hands back a value that is not a protobuf message. *)
Definition binder_mismatch : World :=
  fun e =>
    match e as e' return res e' with
    | EvBinder _ => AnyValue 1
    | e' => calm e'
    end.

(** A broker connected with the protobuf codec configured. *)
Definition b_proto : natsBroker :=
  final (run calm (Init [broker.WithCodec kProto.Name] ;; Connect) (NewBroker [])).

(** The closure of a subscription with manual acknowledgement. *)
Definition cb_manual : callback :=
  {| cb_handler := handlerFn 1; cb_binder := None;
     cb_options := broker.DisableAutoAck
                     {| broker.AutoAck := true; broker.Queue := "";
                        broker.sContext := context.Background |} |}.

(** The closure of a subscription with a binder. *)
Definition cb_bound : callback :=
  {| cb_handler := handlerFn 1; cb_binder := Some (binderFn 1);
     cb_options := {| broker.AutoAck := true; broker.Queue := "";
                      broker.sContext := context.Background |} |}.

(** A broker initialised with a stream configured, not yet connected. *)
Definition b_configured : natsBroker :=
  final (run calm (Init [WithJetStream orders]) (NewBroker [])).


(** * Properties *)

(** ** Running programs *)

Lemma after_nil {A : Type} (o : outcome A) : after [] o = o.
Proof. destruct o; reflexivity. Qed.

Lemma after_app {A : Type} (l1 l2 : trace) (o : outcome A) :
  after l1 (after l2 o) = after (l1 ++ l2) o.
Proof. destruct o; simpl; rewrite app_assoc; reflexivity. Qed.

Lemma final_after {A : Type} (l : trace) (o : outcome A) : final (after l o) = final o.
Proof. destruct o; reflexivity. Qed.

Lemma events_after {A : Type} (l : trace) (o : outcome A) :
  events (after l o) = l ++ events o.
Proof. destruct o; reflexivity. Qed.

Lemma result_after {A : Type} (l : trace) (o : outcome A) : result (after l o) = result o.
Proof. destruct o; reflexivity. Qed.

(** Sequencing: the second program starts where the first one returned. *)
Lemma run_bind {A B : Type} (W : World) (p : prog A) (f : A -> prog B) :
  forall b,
    run W (bind p f) b =
    match run W p b with
    | Returns a b' tr => after tr (run W (f a) b')
    | Panics why b' tr => Panics why b' tr
    | Blocks b' tr => Blocks b' tr
    end.
Proof.
  induction p as [a|why|k IH|g k IH|e k IH|ch v k IH|ch k IH]; intros b; simpl.
  - rewrite after_nil. reflexivity.
  - reflexivity.
  - apply IH.
  - apply IH.
  - rewrite IH. destruct (run W (k (W e)) b); simpl; try reflexivity.
    rewrite after_app. reflexivity.
  - reflexivity.
  - reflexivity.
Qed.

(** Case analysis on whatever a stuck [match] is waiting for, innermost
    scrutinee first. *)
Ltac case_scrutinee :=
  first
    [ match goal with
      | |- context [match ?x with _ => _ end] =>
          lazymatch x with
          | context [match _ with _ => _ end] => fail
          | _ => destruct x eqn:?
          end
      end
    | match goal with
      | |- context [match ?x with _ => _ end] => destruct x eqn:?
      end ].

Ltac run_cases := repeat (case_scrutinee; cbn in *).

(** A disjunction of event equations, as [In] over a concrete trace unfolds
    to: keep the cases that are possible. *)
Ltac pick_event H :=
  repeat match type of H with
         | _ \/ _ => destruct H as [H|H]
         | False => destruct H
         | _ = _ => first [discriminate H | injection H as ? ? ?; subst]
         end.

(** *** Framing: what a program never touches *)

Section Framing.
Variable R : natsBroker -> natsBroker -> Prop.
Hypothesis R_refl : forall b, R b b.
Hypothesis R_trans : forall a b c, R a b -> R b c -> R a c.

Lemma keeps_run {A : Type} (W : World) (p : prog A) :
  keeps R p -> forall b, R b (final (run W p b)).
Proof.
  induction 1 as [a|why|k Hk IH|f k Hf Hk IH|e k Hk IH|ch v k Hk IH|ch k Hk IH];
    intros b; simpl; auto.
  - eapply R_trans; [apply Hf|apply IH].
  - rewrite final_after. apply IH.
Qed.

Lemma keeps_bind {A B : Type} (p : prog A) (f : A -> prog B) :
  keeps R p -> (forall a, keeps R (f a)) -> keeps R (bind p f).
Proof.
  induction 1; intros Hf; simpl; try (constructor; auto); auto.
Qed.

Lemma keeps_defer {A : Type} (d : prog unit) (p : prog A) :
  keeps R d -> keeps R p -> keeps R (defer_ d p).
Proof.
  intros Hd. induction 1; simpl; try (constructor; auto).
  - apply keeps_bind; [exact Hd|intros; constructor].
  - apply keeps_bind; [exact Hd|intros; constructor].
Qed.

Lemma keeps_get : keeps R get.
Proof. repeat constructor. Qed.

Lemma keeps_ret {A : Type} (a : A) : keeps R (ret a).
Proof. constructor. Qed.

Lemma keeps_call (e : event) : keeps R (call e).
Proof. repeat constructor. Qed.

Lemma keeps_modify (f : natsBroker -> natsBroker) :
  (forall b, R b (f b)) -> keeps R (modify f).
Proof. intros; repeat constructor; auto. Qed.

Lemma keeps_chan_send ch v : keeps R (chan_send ch v).
Proof. repeat constructor. Qed.

End Framing.

(** Walk down a program, statement by statement. *)
Ltac frame :=
  repeat first
    [ progress intros
    | progress cbv zeta
    | apply keeps_bind
    | apply keeps_defer
    | apply keeps_get
    | apply keeps_ret
    | match goal with
      | |- keeps ?R (call ?e) => exact (keeps_call R e)
      end
    | apply keeps_chan_send
    | apply keeps_Ret
    | apply keeps_Panic
    | apply keeps_modify; intros; split; [reflexivity | intro; assumption]
    | match goal with
      | |- keeps _ (match ?x with _ => _ end) => destruct x
      end ].

Lemma quiet_refl (b : natsBroker) : quiet_on_conn b b.
Proof. split; auto. Qed.

Lemma quiet_trans (a b c : natsBroker) :
  quiet_on_conn a b -> quiet_on_conn b c -> quiet_on_conn a c.
Proof. intros [H1 H2] [H3 H4]. split; [congruence|auto]. Qed.

Lemma setOption_quiet (opts : list broker.Option) :
  keeps quiet_on_conn (setOption opts).
Proof. unfold setOption, Once_Do, when. frame. Qed.

Lemma Init_quiet (opts : list broker.Option) : keeps quiet_on_conn (Init opts).
Proof.
  unfold Init, when. apply keeps_bind; [apply setOption_quiet|]. frame.
Qed.

Lemma Publish_quiet ctx topic msg opts :
  keeps quiet_on_conn (Publish ctx topic msg opts).
Proof.
  unfold Publish, publish, try_, startProducerSpan, finishProducerSpan. frame.
Qed.

Lemma Subscribe_quiet topic h binder opts :
  keeps quiet_on_conn (Subscribe topic h binder opts).
Proof. unfold Subscribe. frame. Qed.

Lemma Disconnect_quiet : keeps quiet_on_conn Disconnect.
Proof.
  unfold Disconnect, when. frame.
  apply keeps_modify. intros b0. split; [reflexivity|discriminate].
Qed.

Lemma quiet_final {A : Type} (W : World) (p : prog A) (b : natsBroker) :
  keeps quiet_on_conn p -> quiet_on_conn b (final (run W p b)).
Proof.
  intros H. apply keeps_run; [apply quiet_refl|apply quiet_trans|exact H].
Qed.

Lemma before_connect_conn (b : natsBroker) : before_connect b -> conn b = None.
Proof.
  induction 1 as [opts|W opts b H IH|W ctx topic msg opts b H IH
                 |W topic h binder opts b H IH|W b H IH].
  - reflexivity.
  - rewrite <- IH. apply (quiet_final W b (Init_quiet opts)).
  - rewrite <- IH. apply (quiet_final W b (Publish_quiet ctx topic msg opts)).
  - rewrite <- IH. apply (quiet_final W b (Subscribe_quiet topic h binder opts)).
  - rewrite <- IH. apply (quiet_final W b Disconnect_quiet).
Qed.

(** *** Invariants along a sequence of statements *)

Lemma final_bind_inv {A B : Type} (W : World) (P : natsBroker -> Prop)
    (p : prog A) (f : A -> prog B) (b : natsBroker) :
  P (final (run W p b)) ->
  (forall a b', P b' -> P (final (run W (f a) b'))) ->
  P (final (run W (bind p f) b)).
Proof.
  intros Hp Hf. rewrite run_bind.
  destruct (run W p b); simpl in *; rewrite ?final_after; auto.
Qed.

Lemma final_get_bind {B : Type} (W : World) (P : natsBroker -> Prop)
    (k : natsBroker -> prog B) (b : natsBroker) :
  P (final (run W (k b) b)) -> P (final (run W (bind get k) b)).
Proof. intros H. exact H. Qed.

(** ** Addresses (claim C1) *)

Lemma prefix_scheme (addr : string) :
  String.prefix "nats://" ("nats://" ++ addr)%string = true.
Proof.
  cbn. destruct addr; reflexivity.
Qed.

Lemma setAddrs_step_prefixed (addrs : list string) :
  forall acc,
    Forall (fun a => String.prefix "nats://" a = true) acc ->
    Forall (fun a => String.prefix "nats://" a = true)
      (fold_left
         (fun cAddrs addr =>
            if Nat.eqb (String.length addr) 0 then cAddrs
            else
              let addr := if String.prefix "nats://" addr then addr
                          else ("nats://" ++ addr)%string in
              cAddrs ++ [addr])
         addrs acc).
Proof.
  induction addrs as [|addr rest IH]; intros acc Hacc; simpl; [exact Hacc|].
  apply IH.
  destruct (Nat.eqb (String.length addr) 0); [exact Hacc|].
  apply Forall_app; split; [exact Hacc|].
  constructor; [|constructor].
  destruct (String.prefix "nats://" addr) eqn:E; [exact E|apply prefix_scheme].
Qed.

(** What [setAddrs] returns is normalised: every address carries the
    scheme, and there is at least the default endpoint. *)
Lemma setAddrs_normalised (addrs : list string) :
  Forall (fun a => String.prefix "nats://" a = true) (setAddrs addrs) /\
  setAddrs addrs <> [].
Proof.
  unfold setAddrs.
  pose proof (setAddrs_step_prefixed addrs (acc := [])) as H.
  cbv zeta in *.
  destruct (fold_left _ addrs []) as [|a l] eqn:E; simpl.
  - split; [repeat constructor|discriminate].
  - split; [apply H; constructor|discriminate].
Qed.

Lemma setAddrs_empty : setAddrs [] = [natsGo.DefaultURL].
Proof. reflexivity. Qed.

(** [setOption] stores a supplied address list exactly as supplied: the
    list [setAddrs] computes is thrown away. *)
Lemma setOption_Addrs (W : World) (opts : list broker.Option) (b : natsBroker) :
  broker.Addrs (broker.apply opts (options b)) <> [] ->
  broker.Addrs (options (final (run W (setOption opts) b))) =
  broker.Addrs (broker.apply opts (options b)).
Proof.
  intros Hne.
  set (X := broker.Addrs (broker.apply opts (options b))) in *.
  set (P := fun b' : natsBroker => broker.Addrs (options b') = X).
  change (P (final (run W (setOption opts) b))).
  unfold setOption.
  apply final_bind_inv; [reflexivity|]. intros _ b1 H1.
  apply final_bind_inv.
  { unfold Once_Do. cbn. destruct (once b1); exact H1. }
  intros _ b2 H2. apply final_get_bind. apply final_bind_inv.
  { destruct (context.Value _ _) as [[]|]; exact H2. }
  intros _ b3 H3. apply final_get_bind. apply final_bind_inv.
  { unfold when. rewrite H3. destruct X; [contradiction|exact H3]. }
  intros _ b4 H4. apply final_get_bind. apply final_bind_inv.
  { unfold when. destruct (negb _); exact H4. }
  intros _ b5 H5. apply final_get_bind. apply final_bind_inv.
  { destruct (broker.TLSConfig_ _); exact H5. }
  intros _ b6 H6. apply final_get_bind. cbv zeta. apply final_bind_inv.
  { destruct (context.Value _ _); exact H6. }
  intros _ b7 H7. apply final_get_bind.
  destruct (context.Value _ _) as [[]|]; exact H7.
Qed.

(** C1 (the code departs from the claim).  The claim: after option
    application every stored address carries the nats:// scheme and an empty
    list is replaced by the default endpoint.  [setOption] calls [setAddrs],
    which computes exactly that list, and drops the result: with the address
    127.0.0.1:4222 supplied, the stored list is that very string without the
    scheme; with no address supplied and the default client options, the
    stored list stays empty. *)
Theorem C1_setOption_drops_normalised_addresses :
  forall W : World,
    broker.Addrs
      (options (final (run W (Init [broker.WithAddress ["127.0.0.1:4222"]])
                         (NewBroker []))))
    = ["127.0.0.1:4222"]
    /\ String.prefix "nats://" "127.0.0.1:4222" = false
    /\ setAddrs ["127.0.0.1:4222"] = ["nats://127.0.0.1:4222"]
    /\ broker.Addrs (options (final (run W (Init []) (NewBroker [])))) = []
    /\ setAddrs [] = [natsGo.DefaultURL].
Proof.
  intros W. split; [reflexivity|]. split; [reflexivity|].
  split; [reflexivity|]. split; reflexivity.
Qed.

(** ** Before the first Connect (claim C4) *)

Lemma Publish_without_conn (W : World) (b : natsBroker) ctx topic msg opts :
  conn b = None ->
  run W (Publish ctx topic msg opts) b =
  match W (EvMarshal (broker.Codec (options b)) msg) with
  | inl _ =>
      Returns (Some (errors_New "not connected")) b
        [EvMarshal (broker.Codec (options b)) msg; EvRLock; EvRUnlock]
  | inr e =>
      Returns (Some (foreign e)) b [EvMarshal (broker.Codec (options b)) msg]
  end.
Proof.
  intros Hc. unfold Publish, publish, try_. cbn.
  destruct (W (EvMarshal (broker.Codec (options b)) msg)); cbn; [|reflexivity].
  rewrite Hc. reflexivity.
Qed.

Lemma Subscribe_without_conn (W : World) (b : natsBroker) topic h binder opts :
  conn b = None ->
  run W (Subscribe topic h binder opts) b =
  Returns (None, Some (errors_New "not connected")) b [EvRLock; EvRUnlock].
Proof.
  intros Hc. unfold Subscribe. cbn. rewrite Hc. reflexivity.
Qed.

(** C4, as stated, fails: a message the codec cannot serialise makes
    [Publish] return the codec's error, before the connection is looked at. *)
Lemma C4_counterexample_marshal_error :
  before_connect (NewBroker []) /\
  run marshal_fails (Publish context.Background "orders.created" AnyNil [])
    (NewBroker [])
  = Returns (Some (foreign (ErrExternal "message is nil"))) (NewBroker [])
      [EvMarshal None AnyNil] /\
  foreign (ErrExternal "message is nil") <> errors_New "not connected".
Proof.
  split; [constructor|]. split; [reflexivity|discriminate].
Qed.

(** C4 (amended).  On a broker on which Connect has not been called,
    Publish never reaches the network; it returns the not-connected error
    whenever the message serialises, and the codec's error otherwise.
    Subscribe returns the not-connected error and takes nothing but the read
    lock. *)
Theorem C4_not_connected_before_Connect :
  forall (W : World) (b : natsBroker),
    before_connect b ->
    (forall ctx topic msg opts,
        Forall (fun e => network_io e = false)
          (events (run W (Publish ctx topic msg opts) b)) /\
        result (run W (Publish ctx topic msg opts) b) =
        match W (EvMarshal (broker.Codec (options b)) msg) with
        | inl _ => Some (Some (errors_New "not connected"))
        | inr e => Some (Some (foreign e))
        end) /\
    (forall topic h binder opts,
        run W (Subscribe topic h binder opts) b =
        Returns (None, Some (errors_New "not connected")) b [EvRLock; EvRUnlock]).
Proof.
  intros W b Hb. apply before_connect_conn in Hb. split.
  - intros ctx topic msg opts.
    rewrite (Publish_without_conn W b ctx topic msg opts Hb).
    destruct (W (EvMarshal (broker.Codec (options b)) msg)); simpl;
      split; try reflexivity; repeat constructor.
  - intros. apply Subscribe_without_conn. exact Hb.
Qed.

Lemma C4_witness :
  before_connect (final (run calm (Init [broker.WithAddress ["127.0.0.1:4222"]])
                           (NewBroker []))) /\
  result (run calm (Publish context.Background "orders.created"
                      (AnyBytes (list_byte_of_string "id=1")) [])
            (final (run calm (Init [broker.WithAddress ["127.0.0.1:4222"]])
                      (NewBroker []))))
  = Some (Some (errors_New "not connected")).
Proof.
  split.
  - apply bc_Init. apply bc_new.
  - apply (@C4_not_connected_before_Connect calm
             (final (run calm (Init [broker.WithAddress ["127.0.0.1:4222"]])
                       (NewBroker [])))).
    apply bc_Init. apply bc_new.
Defined.

(** ** Connect (claims C8 and C9) *)

Lemma with_connected_same (b : natsBroker) :
  connected b = true -> with_connected true b = b.
Proof. destruct b; simpl; intros ->; reflexivity. Qed.

(** C8.  When the adapter is already connected, or its connection reports
    connected, reconnecting or connecting, Connect returns no error, opens
    no connection and changes nothing but the connected flag (which it
    leaves raised): a second Connect is a no-op. *)
Theorem C8_Connect_is_idempotent :
  forall (W : World) (b : natsBroker),
    (connected b = true \/
     exists c, conn b = Some c /\
               (W (EvConnStatus c) = natsGo.CONNECTED \/
                W (EvConnStatus c) = natsGo.RECONNECTING \/
                W (EvConnStatus c) = natsGo.CONNECTING)) ->
    exists tr,
      run W Connect b = Returns None (with_connected true b) tr /\
      Forall (fun e => is_open e = false) tr /\
      (connected b = true -> with_connected true b = b).
Proof.
  intros W b H.
  destruct (connected b) eqn:Hconn.
  - exists [EvLock; EvUnlock]. split; [|split].
    + unfold Connect. cbn. rewrite Hconn. cbn.
      rewrite with_connected_same by exact Hconn. reflexivity.
    + repeat constructor.
    + intros _. apply with_connected_same. exact Hconn.
  - destruct H as [H|(c & Hc & Hs)]; [discriminate|].
    exists [EvLock; EvConnStatus c; EvUnlock]. split; [|split].
    + unfold Connect. cbn. rewrite Hconn, Hc. cbn.
      destruct Hs as [Hs|[Hs|Hs]]; rewrite Hs; reflexivity.
    + repeat constructor.
    + discriminate.
Qed.

Lemma C8_witness :
  (connected b_plain = true \/
   exists c, conn b_plain = Some c /\
             (calm (EvConnStatus c) = natsGo.CONNECTED \/
              calm (EvConnStatus c) = natsGo.RECONNECTING \/
              calm (EvConnStatus c) = natsGo.CONNECTING)) /\
  exists tr,
    run calm Connect b_plain = Returns None (with_connected true b_plain) tr /\
    Forall (fun e => is_open e = false) tr /\
    (connected b_plain = true -> with_connected true b_plain = b_plain).
Proof.
  split.
  - left. reflexivity.
  - apply (@C8_Connect_is_idempotent calm b_plain). left. reflexivity.
Defined.

(** The flag and the handle go together on every broker the methods can
    produce. *)
Lemma Inv_NewBroker (opts : list broker.Option) : Inv (NewBroker opts).
Proof. intros H. discriminate H. Qed.

Lemma Inv_quiet (b b' : natsBroker) : quiet_on_conn b b' -> Inv b -> Inv b'.
Proof. intros [Hc Hf] HI H. rewrite Hc. apply HI. apply Hf. exact H. Qed.

(** A Connect that reports success leaves the flag raised and a handle in
    place. *)
Lemma Connect_success (W : World) (b b1 : natsBroker) (tr : trace) :
  Inv b ->
  run W Connect b = Returns None b1 tr ->
  connected b1 = true /\ conn b1 <> None.
Proof.
  unfold Inv. intros HI. unfold Connect, try_, when. cbn.
  run_cases; intros Heq; inversion Heq; subst; clear Heq; cbn;
    (split; [try reflexivity; try assumption| try discriminate; try (apply HI; assumption)]).
  all: try congruence; try (apply HI; reflexivity).
Qed.

Lemma Inv_Connect (W : World) (b : natsBroker) :
  Inv b -> Inv (final (run W Connect b)).
Proof.
  unfold Inv. intros HI. unfold Connect, try_, when. cbn.
  run_cases; cbn; intros; try discriminate; try (apply HI; assumption);
    try congruence; try (apply HI; reflexivity).
Qed.

(** ** The invariant on every broker the methods produce *)

Lemma Inv_Init (W : World) (opts : list broker.Option) (b : natsBroker) :
  Inv b -> Inv (final (run W (Init opts) b)).
Proof. apply Inv_quiet. apply (@quiet_final _ W (Init opts) b (Init_quiet opts)). Qed.

Lemma Inv_Publish (W : World) ctx topic msg opts (b : natsBroker) :
  Inv b -> Inv (final (run W (Publish ctx topic msg opts) b)).
Proof.
  apply Inv_quiet.
  apply (@quiet_final _ W _ b (Publish_quiet ctx topic msg opts)).
Qed.

Lemma Inv_Subscribe (W : World) topic h binder opts (b : natsBroker) :
  Inv b -> Inv (final (run W (Subscribe topic h binder opts) b)).
Proof.
  apply Inv_quiet.
  apply (@quiet_final _ W _ b (Subscribe_quiet topic h binder opts)).
Qed.

Lemma Inv_Disconnect (W : World) (b : natsBroker) :
  Inv b -> Inv (final (run W Disconnect b)).
Proof. apply Inv_quiet. apply (@quiet_final _ W _ b Disconnect_quiet). Qed.

Lemma reachable_Inv (b : natsBroker) : reachable b -> Inv b.
Proof.
  induction 1 as [opts|W opts b H IH|W b H IH|W b H IH
                 |W ctx topic msg opts b H IH|W topic h binder opts b H IH].
  - apply Inv_NewBroker.
  - apply Inv_Init. exact IH.
  - apply Inv_Connect. exact IH.
  - apply Inv_Disconnect. exact IH.
  - apply Inv_Publish. exact IH.
  - apply Inv_Subscribe. exact IH.
Qed.

(** Connect called twice: the second call takes and releases the lock and
    nothing else. *)
Lemma Connect_twice (W1 W2 : World) (b b1 : natsBroker) (tr1 : trace) :
  Inv b ->
  run W1 Connect b = Returns None b1 tr1 ->
  run W2 Connect b1 = Returns None b1 [EvLock; EvUnlock].
Proof.
  intros HI H1. destruct (@Connect_success W1 b b1 tr1 HI H1) as [Hc _].
  unfold Connect. cbn. rewrite Hc. cbn. destruct (W2 EvUnlock). reflexivity.
Qed.

(** With a handle in place, the only errors Publish and Subscribe return
    are those a collaborator handed them. *)
Lemma Publish_with_conn (W : World) (b : natsBroker) (c : Conn)
    ctx topic msg opts (e : error) :
  conn b = Some c ->
  result (run W (Publish ctx topic msg opts) b) = Some (Some e) ->
  exists fe, e = foreign fe.
Proof.
  intros Hc. unfold Publish, publish, try_, startProducerSpan, finishProducerSpan.
  cbn.
  run_cases; intros Heq; inversion Heq; subst; eauto; try congruence.
  all: match goal with
       | H : option_map foreign ?x = Some _ |- _ =>
           destruct x; simpl in H; inversion H; eauto
       end.
Qed.

Lemma Subscribe_with_conn (W : World) (b : natsBroker) (c : Conn)
    topic h binder opts (sub : option subscriber) (e : error) :
  conn b = Some c ->
  result (run W (Subscribe topic h binder opts) b) = Some (sub, Some e) ->
  exists fe, e = foreign fe.
Proof.
  intros Hc. unfold Subscribe. cbn. rewrite Hc.
  run_cases; intros Heq; inversion Heq; subst; eauto; congruence.
Qed.

(** C9.  Disconnect never clears the connection handle.  After a
    successful Connect and a Disconnect (however far the latter got), the
    handle is still there, so neither Publish nor Subscribe returns the
    adapter's not-connected error: every error they return is one a
    collaborator produced. *)
Theorem C9_handle_survives_Disconnect :
  forall (W1 W2 W3 : World) (b b1 : natsBroker) (tr1 : trace),
    Inv b ->
    run W1 Connect b = Returns None b1 tr1 ->
    let b2 := final (run W2 Disconnect b1) in
    conn b2 = conn b1 /\
    conn b2 <> None /\
    (forall ctx topic msg opts,
        result (run W3 (Publish ctx topic msg opts) b2)
          <> Some (Some (errors_New "not connected")) /\
        forall e, result (run W3 (Publish ctx topic msg opts) b2) = Some (Some e) ->
                  exists fe, e = foreign fe) /\
    (forall topic h binder opts sub,
        result (run W3 (Subscribe topic h binder opts) b2)
          <> Some (sub, Some (errors_New "not connected")) /\
        forall e, result (run W3 (Subscribe topic h binder opts) b2)
                    = Some (sub, Some e) ->
                  exists fe, e = foreign fe).
Proof.
  intros W1 W2 W3 b b1 tr1 HI Hconnect b2.
  destruct (Connect_success W1 HI Hconnect) as [_ Hc1].
  assert (Hsame : conn b2 = conn b1)
    by apply (quiet_final W2 b1 Disconnect_quiet).
  assert (Hc2 : exists c, conn b2 = Some c).
  { rewrite Hsame. destruct (conn b1) as [c|]; [eauto|contradiction]. }
  destruct Hc2 as [c Hc2].
  split; [exact Hsame|]. split; [congruence|]. split.
  - intros ctx topic msg opts. split.
    + intros Hr. destruct (@Publish_with_conn W3 b2 c ctx topic msg opts _ Hc2 Hr) as [fe Hfe].
      discriminate Hfe.
    + intros e Hr. exact (@Publish_with_conn W3 b2 c ctx topic msg opts e Hc2 Hr).
  - intros topic h binder opts sub. split.
    + intros Hr. destruct (@Subscribe_with_conn W3 b2 c topic h binder opts sub _ Hc2 Hr) as [fe Hfe].
      discriminate Hfe.
    + intros e Hr. exact (@Subscribe_with_conn W3 b2 c topic h binder opts sub e Hc2 Hr).
Qed.

Lemma C9_witness :
  Inv (NewBroker []) /\
  run calm Connect (NewBroker []) =
    Returns None (final (run calm Connect (NewBroker [])))
      (events (run calm Connect (NewBroker []))) /\
  conn (final (run calm Disconnect (final (run calm Connect (NewBroker [])))))
    <> None.
Proof.
  split; [intros H; discriminate H|]. split; [reflexivity|].
  apply (@C9_handle_survives_Disconnect calm calm calm
           (NewBroker []) (final (run calm Connect (NewBroker [])))
           (events (run calm Connect (NewBroker [])))).
  - intros H; discriminate H.
  - reflexivity.
Defined.

(** ** Delivery position (claim C2) *)

(** Each delivery-position key present in the subscribe context contributes
    its native option, in the order all, new, last. *)
Lemma subOptsOf_translates (ctx : context.Context) :
  subOptsOf ctx =
  (match context.Value ctx deliverAllKey with
   | Some _ => [natsGo.DeliverAll] | None => [] end) ++
  (match context.Value ctx deliverNewKey with
   | Some _ => [natsGo.DeliverNew] | None => [] end) ++
  (match context.Value ctx deliverLastKey with
   | Some _ => [natsGo.DeliverLast] | None => [] end).
Proof.
  unfold subOptsOf.
  destruct (context.Value ctx deliverAllKey),
           (context.Value ctx deliverNewKey),
           (context.Value ctx deliverLastKey); reflexivity.
Qed.

Lemma keeps_AutoAck_fold (opts : list broker.SubscribeOption) :
  Forall keeps_AutoAck opts ->
  forall so,
    broker.AutoAck (fold_left (fun acc o => o acc) opts so) = broker.AutoAck so.
Proof.
  induction 1 as [|o opts Ho _ IH]; intros so; simpl; [reflexivity|].
  rewrite IH. apply Ho.
Qed.

(** What Subscribe hands to the client on a broker with a stream: the
    queue-group call carries the translated delivery options, the
    single-consumer call carries none. *)
Lemma Subscribe_stream_call (W : World) (b : natsBroker) (c : Conn)
    (si : natsGo.StreamInfo) (js : JetStreamContext)
    topic h binder (opts : list broker.SubscribeOption) :
  conn b = Some c -> streamInfo b = Some si -> jsCtx b = Some js ->
  let so := fold_left (fun acc o => o acc) opts
              {| broker.AutoAck := true; broker.Queue := "";
                 broker.sContext := context.Background |} in
  let fn := {| cb_handler := h; cb_binder := binder; cb_options := so |} in
  filter is_subscribe_call (events (run W (Subscribe topic h binder opts) b)) =
  [if Nat.ltb 0 (String.length (broker.Queue so))
   then EvJsQueueSubscribe js topic (broker.Queue so) fn
          (subOptsOf (broker.sContext so))
   else EvJsSubscribe js topic fn []].
Proof.
  intros Hc Hs Hj so fn0. unfold Subscribe. cbn. rewrite Hc. cbn.
  rewrite Hs, Hj. fold so. fold fn0.
  destruct (Nat.ltb 0 (String.length (broker.Queue so))); cbn;
    run_cases; reflexivity.
Qed.

(** C2 (the code departs from the claim).  The claim: with a stream
    configured, the delivery-position option reaches the native subscribe
    call on the queue-group path and on the single-consumer path alike.  On
    a broker with the stream [orders], subscribing with deliver-all and no
    queue name calls the stream's Subscribe with an empty option list; the
    same subscription with a queue name passes DeliverAll. *)
Theorem C2_single_consumer_path_drops_delivery_option :
  forall (W : World) (h : Handler),
    streamInfo b_stream <> None /\
    filter is_subscribe_call
      (events (run W (Subscribe "orders.*" h None [WithDeliverAll]) b_stream))
    = [EvJsSubscribe (jsContext 1) "orders.*"
         {| cb_handler := h; cb_binder := None;
            cb_options := {| broker.AutoAck := true; broker.Queue := "";
                             broker.sContext := [(deliverAllKey, VStruct)] |} |}
         []] /\
    filter is_subscribe_call
      (events (run W (Subscribe "orders.*" h None
                        [WithDeliverAll; broker.WithQueueName "workers"])
                 b_stream))
    = [EvJsQueueSubscribe (jsContext 1) "orders.*" "workers"
         {| cb_handler := h; cb_binder := None;
            cb_options := {| broker.AutoAck := true; broker.Queue := "workers";
                             broker.sContext := [(deliverAllKey, VStruct)] |} |}
         [natsGo.DeliverAll]].
Proof.
  intros W h. split; [discriminate|]. split.
  - apply (@Subscribe_stream_call W b_stream (connPtr 1)
             {| natsGo.Config := orders |} (jsContext 1)
             "orders.*" h None [WithDeliverAll]); reflexivity.
  - apply (@Subscribe_stream_call W b_stream (connPtr 1)
             {| natsGo.Config := orders |} (jsContext 1)
             "orders.*" h None [WithDeliverAll; broker.WithQueueName "workers"]);
      reflexivity.
Qed.

(** ** The per-message callback (claims C5, C6, C7, C10) *)

Lemma precedes_here (a c : event) (tr : trace) :
  In c tr -> precedes a c (a :: tr).
Proof.
  intros H. apply in_split in H. destruct H as (l2 & l3 & ->).
  exists [], l2, l3. reflexivity.
Qed.

Lemma precedes_cons (a c x : event) (tr : trace) :
  precedes a c tr -> precedes a c (x :: tr).
Proof.
  intros (l1 & l2 & l3 & ->). exists (x :: l1), l2, l3. reflexivity.
Qed.

(** Membership in, and order within, a trace that is written out. *)
Ltac in_trace := simpl; repeat first [left; reflexivity | right].

Ltac in_order :=
  repeat first [apply precedes_here; in_trace | apply precedes_cons].

Ltac each_event H :=
  simpl in H;
  repeat match type of H with
         | _ \/ _ => destruct H as [H|H]
         | False => destruct H
         end;
  subst.

Ltac unit_result :=
  match goal with
  | |- Some ?x = Some tt => destruct x; reflexivity
  end.

Ltac open_fn :=
  unfold fn, startConsumerSpan, finishConsumerSpan, when in *; cbn in *.



(** On a traced broker a decode failure starts the consumer span and returns
    without ending it. *)
Lemma fn_decode_failure_span (W : World) (b : natsBroker) (cb : callback)
    (msg : natsGo.Msg) (e : foreign_error) (tracer : tracing.Tracer) :
  consumerTracer b = Some tracer ->
  decode_failed W (run W (fn cb msg) b) e ->
  result (run W (fn cb msg) b) = Some tt /\
  existsb is_span_start (events (run W (fn cb msg) b)) = true /\
  existsb is_span_end (events (run W (fn cb msg) b)) = false.
Proof.
  intros Ht (codec & data & target & Hin & HW).
  open_fn. rewrite Ht in *. cbn in *.
  run_cases; pick_event Hin; try congruence.
  all: repeat split.
Qed.

(** On every path on which the message decodes and the callback returns, the
    span that was started is ended, as the last thing the callback does. *)
Lemma fn_span_ended_after_decode (W : World) (b : natsBroker) (cb : callback)
    (msg : natsGo.Msg) (body : Any) (tracer : tracing.Tracer) :
  consumerTracer b = Some tracer ->
  decoded W (run W (fn cb msg) b) body ->
  exists pre span,
    events (run W (fn cb msg) b) =
    pre ++ [EvTracerEnd tracer context.Background span None].
Proof.
  intros Ht (codec & data & target & Hin & HW).
  open_fn. rewrite Ht in *. cbn in *.
  run_cases; pick_event Hin; try congruence.
  all: repeat match goal with
              | H : Some _ = Some _ |- _ => injection H as H; subst
              end.
  all: match goal with
       | |- exists pre span, ?l = _ => exists (removelast l)
       end; eexists; reflexivity.
Qed.

(** C5 (the code departs from the claim).  The claim: the callback ends the
    consumer span on every path, the decode-failure path included.  On a
    broker with tracing configured, a message that fails to decode starts
    the span, logs, calls the error handler and returns: no span end is
    among the events of the callback. *)
Theorem C5_decode_failure_leaves_span_open :
  consumerTracer b_traced <> None /\
  events
    (run decode_fails
       (fn cb_plain order_created)
       b_traced)
  = [EvTracerStart
       (tracing.NewTracer tracing.SpanKindConsumer "nats-consumer" [0])
       context.Background order_created (consumerAttrs "orders.created");
     EvUnmarshal None (natsGo.Data order_created)
       (AnyBytes (natsGo.Data order_created));
     EvLogErrorf "[nats]: unmarshal message failed: %v"
       (foreign (ErrExternal "invalid character"));
     EvErrorHandler (handlerFn 9) context.Background
       {| t := "orders.created";
          m := {| broker.Headers := [];
                  broker.Body := AnyBytes (natsGo.Data order_created) |};
          err := Some (foreign (ErrExternal "invalid character")) |}] /\
  result
    (run decode_fails
       (fn cb_plain order_created)
       b_traced)
  = Some tt.
Proof.
  split; [discriminate|]. split; reflexivity.
Qed.



(** With auto-acknowledge on, a message that decodes is acknowledged after
    the user handler ran, whatever the handler returned. *)
Lemma fn_acks_after_handler (W : World) (b : natsBroker) (cb : callback)
    (msg : natsGo.Msg) (body : Any) :
  broker.AutoAck (cb_options cb) = true ->
  decoded W (run W (fn cb msg) b) body ->
  exists hh ctx pub am,
    precedes (EvHandler hh ctx pub) (EvMsgAck am) (events (run W (fn cb msg) b)) /\
    natsGo.Subject am = natsGo.Subject msg /\
    natsGo.Data am = natsGo.Data msg.
Proof.
  intros Hack (codec & data & target & Hin & HW).
  open_fn. rewrite Hack in *. cbn in *.
  run_cases; pick_event Hin; try congruence.
  all: do 4 eexists; split; [in_order|split; reflexivity].
Qed.

(** With auto-acknowledge on, a message the codec decodes is handed to the
    user handler and then acknowledged, and the callback returns: the
    premise is the codec's answer, not what the callback did. *)
Lemma fn_acks_when_codec_decodes (W : World) (b : natsBroker) (cb : callback)
    (msg : natsGo.Msg) (target body : Any) :
  broker.AutoAck (cb_options cb) = true ->
  decode_target W b cb msg = Some target ->
  W (EvUnmarshal (broker.Codec (options b)) (natsGo.Data msg) target) = inl body ->
  result (run W (fn cb msg) b) = Some tt /\
  exists ctx pub am,
    precedes (EvHandler (cb_handler cb) ctx pub) (EvMsgAck am)
      (events (run W (fn cb msg) b)) /\
    t pub = natsGo.Subject msg /\
    broker.Body (m pub) = body /\
    natsGo.Subject am = natsGo.Subject msg /\
    natsGo.Data am = natsGo.Data msg /\
    length (filter is_ack (events (run W (fn cb msg) b))) = 1.
Proof.
  intros Hack Hd HW. unfold decode_target in Hd.
  open_fn. rewrite Hack in *. cbn in *.
  run_cases; try discriminate; try congruence.
  all: repeat match goal with
              | H : Some _ = Some _ |- _ => injection H as H; subst
              end.
  all: try congruence.
  all: repeat match goal with
              | H : broker.Codec (options ?x) = _,
                H2 : context [broker.Codec (options ?x)] |- _ => rewrite H in H2
              end.
  all: repeat match goal with
              | H1 : ?w ?e = _, H2 : ?w ?e = _ |- _ => rewrite H1 in H2
              | H : inl _ = inl _ |- _ => injection H as H; subst
              | H : inr _ = inl _ |- _ => discriminate H
              | H : inl _ = inr _ |- _ => discriminate H
              end.
  all: (split; [first [reflexivity | unit_result]|]);
    do 3 eexists; (split; [in_order|]); repeat split.
Qed.

(** The closure Subscribe registers captures the handler, the binder and
    the subscribe options as applied to the defaults. *)
Lemma Subscribe_callback (W : World) (b : natsBroker) topic h binder
    (opts : list broker.SubscribeOption) (ev : event) (cb : callback) :
  In ev (events (run W (Subscribe topic h binder opts) b)) ->
  callback_of ev = Some cb ->
  cb = {| cb_handler := h; cb_binder := binder;
          cb_options :=
            fold_left (fun acc o => o acc) opts
              {| broker.AutoAck := true; broker.Queue := "";
                 broker.sContext := context.Background |} |}.
Proof.
  unfold Subscribe. cbn.
  run_cases; intros Hin Hcb; each_event Hin; simpl in Hcb;
    try discriminate Hcb; injection Hcb as <-; reflexivity.
Qed.

(** C10.  When no subscribe option touches the auto-acknowledge setting, the
    closure Subscribe registers has auto-acknowledge on.  So for every
    delivered message that the codec decodes, the callback hands the decoded
    body to the handler given to Subscribe, acknowledges that message after
    the handler ran, exactly once, and returns; the premise is the codec's
    answer to the decode request the callback makes.  Read off the trace:
    whenever the trace shows a successful decode, the acknowledgement
    follows the handler call. *)
Theorem C10_auto_ack_by_default :
  forall (W : World) (b : natsBroker) topic h binder
         (opts : list broker.SubscribeOption),
    Forall keeps_AutoAck opts ->
    forall (ev : event) (cb : callback),
      In ev (events (run W (Subscribe topic h binder opts) b)) ->
      callback_of ev = Some cb ->
      broker.AutoAck (cb_options cb) = true /\
      (forall (W' : World) (b' : natsBroker) (msg : natsGo.Msg)
              (target body : Any),
          decode_target W' b' cb msg = Some target ->
          W' (EvUnmarshal (broker.Codec (options b')) (natsGo.Data msg) target)
            = inl body ->
          result (run W' (fn cb msg) b') = Some tt /\
          exists ctx pub am,
            precedes (EvHandler h ctx pub) (EvMsgAck am)
              (events (run W' (fn cb msg) b')) /\
            t pub = natsGo.Subject msg /\
            broker.Body (m pub) = body /\
            natsGo.Subject am = natsGo.Subject msg /\
            natsGo.Data am = natsGo.Data msg /\
            length (filter is_ack (events (run W' (fn cb msg) b'))) = 1) /\
      forall (W' : World) (b' : natsBroker) (msg : natsGo.Msg) (body : Any),
        decoded W' (run W' (fn cb msg) b') body ->
        exists hh ctx pub am,
          precedes (EvHandler hh ctx pub) (EvMsgAck am)
            (events (run W' (fn cb msg) b')) /\
          natsGo.Subject am = natsGo.Subject msg /\
          natsGo.Data am = natsGo.Data msg.
Proof.
  intros W b topic h binder opts Hopts ev cb Hin Hcb.
  pose proof (@Subscribe_callback W b topic h binder opts ev cb Hin Hcb) as Hcb'.
  assert (Hack : broker.AutoAck (cb_options cb) = true).
  { rewrite Hcb'. simpl. apply (@keeps_AutoAck_fold opts Hopts). }
  assert (Hh : cb_handler cb = h) by (rewrite Hcb'; reflexivity).
  split; [exact Hack|]. split.
  - intros W' b' msg target body Hd HW. rewrite <- Hh.
    exact (@fn_acks_when_codec_decodes W' b' cb msg target body Hack Hd HW).
  - intros W' b' msg body Hdec.
    exact (@fn_acks_after_handler W' b' cb msg body Hack Hdec).
Qed.

Lemma C10_witness :
  Forall keeps_AutoAck [WithDeliverNew; broker.WithQueueName "workers"] /\
  In (EvConnQueueSubscribe (connPtr 1) "orders.*" "workers"
        {| cb_handler := handlerFn 1; cb_binder := None;
           cb_options := {| broker.AutoAck := true; broker.Queue := "workers";
                            broker.sContext := [(deliverNewKey, VStruct)] |} |})
     (events (run calm
                (Subscribe "orders.*" (handlerFn 1) None
                   [WithDeliverNew; broker.WithQueueName "workers"])
                b_plain)) /\
  decode_target calm b_plain
    {| cb_handler := handlerFn 1; cb_binder := None;
       cb_options := {| broker.AutoAck := true; broker.Queue := "workers";
                        broker.sContext := [(deliverNewKey, VStruct)] |} |}
    order_created
  = Some (AnyBytes (natsGo.Data order_created)) /\
  calm (EvUnmarshal (broker.Codec (options b_plain)) (natsGo.Data order_created)
          (AnyBytes (natsGo.Data order_created)))
  = inl (AnyBytes (natsGo.Data order_created)) /\
  result
    (run calm
       (fn {| cb_handler := handlerFn 1; cb_binder := None;
              cb_options := {| broker.AutoAck := true; broker.Queue := "workers";
                               broker.sContext := [(deliverNewKey, VStruct)] |} |}
           order_created)
       b_plain)
  = Some tt /\
  exists ctx pub am,
    precedes (EvHandler (handlerFn 1) ctx pub) (EvMsgAck am)
      (events
         (run calm
            (fn {| cb_handler := handlerFn 1; cb_binder := None;
                   cb_options :=
                     {| broker.AutoAck := true; broker.Queue := "workers";
                        broker.sContext := [(deliverNewKey, VStruct)] |} |}
                order_created)
            b_plain)) /\
    t pub = natsGo.Subject order_created /\
    broker.Body (m pub) = AnyBytes (natsGo.Data order_created) /\
    natsGo.Subject am = natsGo.Subject order_created /\
    natsGo.Data am = natsGo.Data order_created /\
    length
      (filter is_ack
         (events
            (run calm
               (fn {| cb_handler := handlerFn 1; cb_binder := None;
                      cb_options :=
                        {| broker.AutoAck := true; broker.Queue := "workers";
                           broker.sContext := [(deliverNewKey, VStruct)] |} |}
                   order_created)
               b_plain)))
    = 1.
Proof.
  assert (H1 : Forall keeps_AutoAck [WithDeliverNew; broker.WithQueueName "workers"]).
  { repeat constructor. }
  assert (H2 : In (EvConnQueueSubscribe (connPtr 1) "orders.*" "workers"
        {| cb_handler := handlerFn 1; cb_binder := None;
           cb_options := {| broker.AutoAck := true; broker.Queue := "workers";
                            broker.sContext := [(deliverNewKey, VStruct)] |} |})
     (events (run calm
                (Subscribe "orders.*" (handlerFn 1) None
                   [WithDeliverNew; broker.WithQueueName "workers"])
                b_plain))).
  { vm_compute. right. right. right. left. reflexivity. }
  assert (H3 : decode_target calm b_plain
    {| cb_handler := handlerFn 1; cb_binder := None;
       cb_options := {| broker.AutoAck := true; broker.Queue := "workers";
                        broker.sContext := [(deliverNewKey, VStruct)] |} |}
    order_created
    = Some (AnyBytes (natsGo.Data order_created))) by reflexivity.
  assert (H4 : calm (EvUnmarshal (broker.Codec (options b_plain))
                       (natsGo.Data order_created)
                       (AnyBytes (natsGo.Data order_created)))
               = inl (AnyBytes (natsGo.Data order_created))) by reflexivity.
  split; [exact H1|]. split; [exact H2|]. split; [exact H3|]. split; [exact H4|].
  exact (proj1 (proj2
    (@C10_auto_ack_by_default calm b_plain "orders.*" (handlerFn 1) None
       [WithDeliverNew; broker.WithQueueName "workers"] H1 _ _ H2 eq_refl))
    calm b_plain order_created _ _ H3 H4).
Defined.

(** ** The drain wait (claim C3) *)

(** Alone, [Disconnect] with drain set parks at its send, having done
    nothing but take the lock and ask for the drain. *)
Lemma Disconnect_drain_blocks (W : World) (b : natsBroker) (c : Conn) :
  drain b = true -> conn b = Some c ->
  run W Disconnect b = Blocks b [EvLock; EvConnDrain c].
Proof.
  intros Hd Hc. unfold Disconnect, when. cbn. rewrite Hd, Hc. reflexivity.
Qed.

(** Without drain, [Disconnect] clears the registry, closes the connection,
    lowers the flag and returns. *)
Lemma Disconnect_plain (W : World) (b : natsBroker) (c : Conn) :
  drain b = false -> conn b = Some c ->
  run W Disconnect b =
  Returns None (with_connected false (with_subscribers [] b))
    [EvLock; EvSubscribersClear; EvConnClose c; EvUnlock].
Proof.
  intros Hd Hc. unfold Disconnect, when. cbn. rewrite Hd. cbn. rewrite Hc.
  cbn. destruct (W EvUnlock). reflexivity.
Qed.

Lemma callback_bystander (p : prog unit) : is_callback p -> bystander p.
Proof.
  intros [->|[[e ->]|[e ->]]].
  - unfold onClose. cbn. constructor. intros. constructor.
  - unfold onAsyncError. destruct e as [e|]; [|constructor].
    destruct (errors_Is e ErrDrainTimeout); [|constructor].
    cbn. constructor. intros. constructor.
  - unfold onDisconnectedError. cbn. constructor. intros. constructor.
Qed.

Lemma harmless_Lock : harmless EvLock.
Proof. split; [discriminate|intros; discriminate]. Qed.

Lemma harmless_Drain (c : Conn) : harmless (EvConnDrain c).
Proof. split; [discriminate|intros; discriminate]. Qed.

(** With drain set, [Disconnect] heads for its send. *)
Lemma Disconnect_heads_for_send (b : natsBroker) :
  drain b = true -> heads_for_send b (go Disconnect).
Proof.
  intros Hd. unfold go, Disconnect, when. cbn.
  constructor; [apply harmless_Lock|]. intros _.
  constructor. rewrite Hd. destruct (conn b) as [c|]; cbn.
  - constructor; [apply harmless_Drain|]. intros _. constructor.
  - constructor.
Qed.

Lemma local_step_bystander (W : World) (b b' : natsBroker) (p p' : prog unit)
    (es : trace) :
  bystander p -> local_step W b p = Some (b', es, p') ->
  b' = b /\ Forall harmless es /\ bystander p'.
Proof.
  intros Hp. destruct Hp; simpl; intros Heq; inversion Heq; subst; auto.
Qed.

Lemma local_step_heads (W : World) (b b' : natsBroker) (p p' : prog unit)
    (es : trace) :
  heads_for_send b p -> local_step W b p = Some (b', es, p') ->
  b' = b /\ Forall harmless es /\ heads_for_send b p'.
Proof.
  intros Hp. destruct Hp; simpl; intros Heq; inversion Heq; subst; auto.
Qed.

(** Nobody in the pool is at a receive. *)
Lemma drain_wait_no_receiver (b : natsBroker) (P : pool) ch k :
  drain_wait b P -> ~ In (ChanRecv ch k) (threads P).
Proof.
  intros (_ & _ & main & rest & -> & Hm & Hr) [Hin|Hin].
  - subst. inversion Hm.
  - rewrite Forall_forall in Hr. specialize (Hr _ Hin). inversion Hr.
Qed.

Lemma drain_wait_step (W : World) (b : natsBroker) (P Q : pool) :
  drain_wait b P -> step W P Q -> drain_wait b Q.
Proof.
  intros HP Hstep.
  destruct Hstep as [b0 h l p r b' es p' Hl|b0 h l mid r id v k k'|b0 h l mid r id v k k'].
  - destruct HP as (Hs & Hh & main & rest & Ht & Hm & Hr). simpl in *. subst b0.
    destruct l as [|x l]; simpl in *; injection Ht as ? ?; subst.
    + destruct (@local_step_heads W _ _ _ _ _ Hm Hl) as (-> & Hes & Hp').
      split; [reflexivity|]. split; [apply Forall_app; auto|].
      exists p', rest. auto.
    + apply Forall_app in Hr. destruct Hr as [Hl1 Hr]. inversion Hr; subst.
      destruct (@local_step_bystander W _ _ _ _ _ H1 Hl) as (-> & Hes & Hp').
      split; [reflexivity|]. split; [apply Forall_app; auto|].
      exists main, (l ++ p' :: r). split; [reflexivity|]. split; [exact Hm|].
      apply Forall_app. auto.
  - exfalso. apply (@drain_wait_no_receiver b _ (chanRef id) k' HP).
    simpl. apply in_or_app. right. right. apply in_or_app. right. left. reflexivity.
  - exfalso. apply (@drain_wait_no_receiver b _ (chanRef id) k' HP).
    simpl. apply in_or_app. right. left. reflexivity.
Qed.

Lemma drain_wait_steps (W : World) (b : natsBroker) (P Q : pool) :
  drain_wait b P -> steps W P Q -> drain_wait b Q.
Proof.
  intros HP Hs. induction Hs as [P|P Q R Hs IH Hstep]; [exact HP|].
  apply (@drain_wait_step W b Q R); [apply IH; exact HP|exact Hstep].
Qed.

(** C3 (the code departs from the claim).  The claim: with drain set,
    Disconnect asks for the drain, waits until it receives the signal one of
    the registered callbacks sends, and then clears the registry, closes the
    connection and returns.  In the code Disconnect sends on the signal
    channel, as the callbacks do, and nothing receives: however the
    goroutines of Disconnect and of any number of callbacks are scheduled,
    Disconnect stays in front of its send, the struct is untouched, and the
    registry is never cleared nor the connection closed. *)
Theorem C3_Disconnect_with_drain_never_proceeds :
  forall (W : World) (b : natsBroker) (callbacks : list (prog unit)) (P : pool),
    drain b = true ->
    Forall is_callback callbacks ->
    steps W {| shared := b; hist := [];
               threads := go Disconnect :: callbacks |} P ->
    shared P = b /\
    ~ In EvSubscribersClear (hist P) /\
    (forall c, ~ In (EvConnClose c) (hist P)) /\
    exists main rest,
      threads P = main :: rest /\ heads_for_send b main /\ main <> Ret tt.
Proof.
  intros W b callbacks P Hd Hcb Hsteps.
  assert (H0 : drain_wait b {| shared := b; hist := [];
                               threads := go Disconnect :: callbacks |}).
  { split; [reflexivity|]. split; [constructor|].
    exists (go Disconnect), callbacks. split; [reflexivity|].
    split; [apply Disconnect_heads_for_send; exact Hd|].
    eapply Forall_impl; [|exact Hcb]. apply callback_bystander. }
  destruct (@drain_wait_steps W b _ P H0 Hsteps) as (Hs & Hh & main & rest & Ht & Hm & Hr).
  rewrite Forall_forall in Hh.
  split; [exact Hs|]. split; [|split].
  - intros Hin. apply Hh in Hin. destruct Hin as [Hin _]. apply Hin. reflexivity.
  - intros c Hin. apply Hh in Hin. destruct Hin as [_ Hin]. apply (Hin c). reflexivity.
  - exists main, rest. split; [exact Ht|]. split; [exact Hm|].
    intros ->. inversion Hm.
Qed.

Lemma steps_trans (W : World) (P Q R : pool) :
  steps W P Q -> steps W Q R -> steps W P R.
Proof.
  intros HPQ HQR. induction HQR as [Q|Q R S HQR IH Hstep]; [exact HPQ|].
  apply (@steps_snoc W P R S); [apply IH; exact HPQ|exact Hstep].
Qed.

Lemma step_at_sound (W : World) (b : natsBroker) (ts : list (prog unit)) :
  forall i b' es ts',
    step_at W b ts i = Some (b', es, ts') ->
    exists l p r p',
      ts = l ++ p :: r /\ ts' = l ++ p' :: r /\
      local_step W b p = Some (b', es, p').
Proof.
  induction ts as [|q ts IH]; intros i b' es ts' H; [discriminate H|].
  destruct i as [|i]; simpl in H.
  - destruct (local_step W b q) as [[[b1 es1] q1]|] eqn:E; [|discriminate H].
    injection H as <- <- <-. exists [], q, ts, q1. auto.
  - destruct (step_at W b ts i) as [[[b1 es1] ts1]|] eqn:E; [|discriminate H].
    injection H as <- <- <-.
    destruct (IH _ _ _ _ E) as (l & p & r & p' & -> & -> & Hl).
    exists (q :: l), p, r, p'. auto.
Qed.

Lemma sched_steps (W : World) (P : pool) (i : nat) : steps W P (sched W P i).
Proof.
  unfold sched.
  destruct (step_at W (shared P) (threads P) i) as [[[b' es] ts']|] eqn:E;
    [|apply steps_refl].
  destruct (step_at_sound W _ _ _ E) as (l & p & r & p' & Hts & -> & Hl).
  destruct P as [b h ts]. simpl in *. subst ts.
  apply (@steps_snoc W _ {| shared := b; hist := h; threads := l ++ p :: r |});
    [apply steps_refl|].
  apply step_local. exact Hl.
Qed.

(** Every schedule is a run of the pool. *)
Lemma schedule_steps (W : World) (order : list nat) :
  forall P, steps W P (schedule W P order).
Proof.
  unfold schedule.
  induction order as [|i order IH]; intros P; simpl; [apply steps_refl|].
  apply (@steps_trans W P (sched W P i)); [apply sched_steps|apply IH].
Qed.

(** The witness lets Disconnect take the lock, read the struct and ask for
    the drain, and the closed-callback read the struct: both goroutines are
    then at their send. *)
Lemma C3_witness :
  drain b_drain = true /\
  Forall is_callback [onClose] /\
  steps calm
    {| shared := b_drain; hist := []; threads := [go Disconnect; onClose] |}
    (schedule calm
       {| shared := b_drain; hist := []; threads := [go Disconnect; onClose] |}
       [0; 0; 0; 1]) /\
  hist (schedule calm
          {| shared := b_drain; hist := [];
             threads := [go Disconnect; onClose] |}
          [0; 0; 0; 1])
  = [EvLock; EvConnDrain (connPtr 1)] /\
  ~ In EvSubscribersClear
      (hist (schedule calm
               {| shared := b_drain; hist := [];
                  threads := [go Disconnect; onClose] |}
               [0; 0; 0; 1])).
Proof.
  assert (H1 : drain b_drain = true) by reflexivity.
  assert (H2 : Forall is_callback [onClose]).
  { constructor; [left; reflexivity|constructor]. }
  assert (H3 : steps calm
    {| shared := b_drain; hist := []; threads := [go Disconnect; onClose] |}
    (schedule calm
       {| shared := b_drain; hist := []; threads := [go Disconnect; onClose] |}
       [0; 0; 0; 1])) by apply schedule_steps.
  split; [exact H1|]. split; [exact H2|]. split; [exact H3|].
  split; [reflexivity|].
  exact (proj1 (proj2
    (@C3_Disconnect_with_drain_never_proceeds calm b_drain [onClose] _ H1 H2 H3))).
Defined.

(** For comparison: were Disconnect to receive, as the specification words
    it, the same pool runs to completion: the closed-callback hands over its
    signal, and only then is the registry cleared and the connection
    closed. *)
Lemma Disconnect_as_specified_completes :
  exists P,
    steps calm
      {| shared := b_drain; hist := [];
         threads := [go Disconnect_as_specified; onClose] |} P /\
    threads P = [Ret tt; Ret tt] /\
    hist P = [EvLock; EvConnDrain (connPtr 1); EvSubscribersClear;
              EvConnClose (connPtr 1); EvUnlock] /\
    connected (shared P) = false.
Proof.
  eexists. split.
  - eapply steps_trans; [apply (schedule_steps calm [0; 0; 0; 1])|].
    eapply steps_trans.
    + eapply steps_snoc; [apply steps_refl|].
      match goal with
      | |- step _ ?P _ => let P' := eval vm_compute in P in change P with P'
      end.
      apply (step_recv_send calm _ _ [] [] []).
    + apply (schedule_steps calm [0; 0; 0; 0; 0; 0]).
  - vm_compute. repeat split.
Qed.

(** * Further properties of the adapter *)

(** ** More on the addresses ([setAddrs]) *)

Lemma setAddrs_loop_app (addrs : list string) :
  forall acc,
    fold_left
      (fun cAddrs addr =>
         if Nat.eqb (String.length addr) 0 then cAddrs
         else
           let addr := if String.prefix "nats://" addr then addr
                       else ("nats://" ++ addr)%string in
           cAddrs ++ [addr])
      addrs acc
    = acc ++
      map (fun addr => if String.prefix "nats://" addr then addr
                       else ("nats://" ++ addr)%string)
        (filter (fun addr => negb (Nat.eqb (String.length addr) 0)) addrs).
Proof.
  induction addrs as [|addr rest IH]; intros acc; simpl.
  - rewrite app_nil_r. reflexivity.
  - rewrite IH. destruct (Nat.eqb (String.length addr) 0); simpl; [reflexivity|].
    rewrite <- app_assoc. reflexivity.
Qed.

Lemma setAddrs_by_map (addrs : list string) :
  setAddrs addrs =
  match
    map (fun addr => if String.prefix "nats://" addr then addr
                     else ("nats://" ++ addr)%string)
      (filter (fun addr => negb (Nat.eqb (String.length addr) 0)) addrs)
  with
  | [] => [natsGo.DefaultURL]
  | l => l
  end.
Proof.
  unfold setAddrs. cbv zeta. rewrite setAddrs_loop_app. simpl.
  destruct (map _ _); reflexivity.
Qed.

(** X1.  [setAddrs] keeps the order of the addresses, drops the empty
    ones, puts the scheme in front of those that lack it and leaves the
    others alone; when nothing is left the result is the client's default
    URL. *)
Theorem X1_setAddrs_filters_and_prefixes :
  forall addrs : list string,
    setAddrs addrs =
    match
      map (fun addr => if String.prefix "nats://" addr then addr
                       else ("nats://" ++ addr)%string)
        (filter (fun addr => negb (Nat.eqb (String.length addr) 0)) addrs)
    with
    | [] => [natsGo.DefaultURL]
    | l => l
    end.
Proof. exact setAddrs_by_map. Qed.

Lemma prefixed_nonempty (a : string) :
  String.prefix "nats://" a = true -> Nat.eqb (String.length a) 0 = false.
Proof. destruct a; [discriminate|reflexivity]. Qed.

Lemma setAddrs_fixes_normalised (l : list string) :
  l <> [] ->
  Forall (fun a => String.prefix "nats://" a = true) l ->
  setAddrs l = l.
Proof.
  intros Hne Hall. rewrite setAddrs_by_map.
  assert (E : map (fun addr => if String.prefix "nats://" addr then addr
                               else ("nats://" ++ addr)%string)
                (filter (fun addr => negb (Nat.eqb (String.length addr) 0)) l) = l).
  { clear Hne. induction Hall as [|a l Ha _ IH]; [reflexivity|].
    cbn [filter]. rewrite (prefixed_nonempty a Ha). cbn [negb map].
    rewrite Ha, IH. reflexivity. }
  rewrite E. destruct l; [contradiction|reflexivity].
Qed.

(** X2.  What [setAddrs] returns is a normal form: the list is never
    empty, every address in it carries the scheme, and a second pass
    returns it unchanged. *)
Theorem X2_setAddrs_normal_form :
  forall addrs : list string,
    setAddrs addrs <> [] /\
    Forall (fun a => String.prefix "nats://" a = true) (setAddrs addrs) /\
    setAddrs (setAddrs addrs) = setAddrs addrs.
Proof.
  intros addrs. destruct (setAddrs_normalised addrs) as [Hall Hne].
  split; [exact Hne|]. split; [exact Hall|].
  apply setAddrs_fixes_normalised; assumption.
Qed.

(** ** More on Connect *)

Ltac open_Connect := unfold Connect, try_, when in *; cbn in *.

Ltac same_outcome Heq :=
  first
    [ discriminate Heq
    | injection Heq; clear Heq; intros;
      repeat match goal with
             | H : _ = ?x |- _ => is_var x; subst x
             end ].

(** X3.  When [Connect] returns an error, the error is one the client
    produced, a dial was attempted, the connected flag is down, and the
    struct is as before the call except possibly for the JetStream
    context: neither the connection handle nor the stream information was
    stored. *)
Theorem X3_Connect_error_stores_nothing (W : World) (b b1 : natsBroker) (tr : trace)
    (e : error) :
  run W Connect b = Returns (Some e) b1 tr ->
  b1 = with_jsCtx (jsCtx b1) b /\
  connected b1 = false /\
  (exists fe, e = foreign fe) /\
  In (EvOptsConnect (dial_options b)) tr.
Proof.
  open_Connect.
  run_cases; intros Heq; same_outcome Heq.
  all: destruct b; cbn in *; subst.
  all: (split; [reflexivity|]); (split; [reflexivity|]); (split; [eauto|]).
  all: unfold dial_options; cbn;
    match goal with
    | H : broker.TLSConfig_ _ = _ |- _ => rewrite H
    end; in_trace.
Qed.

Lemma X3_witness :
  run dial_fails Connect b_configured =
    Returns
      (Some (foreign (ErrExternal "nats: no servers available for connection")))
      (final (run dial_fails Connect b_configured))
      (events (run dial_fails Connect b_configured)) /\
  connected (final (run dial_fails Connect b_configured)) = false.
Proof.
  assert (H : run dial_fails Connect b_configured =
    Returns
      (Some (foreign (ErrExternal "nats: no servers available for connection")))
      (final (run dial_fails Connect b_configured))
      (events (run dial_fails Connect b_configured)))
    by (vm_compute; reflexivity).
  split; [exact H|].
  exact (proj1 (proj2 (@X3_Connect_error_stores_nothing dial_fails b_configured
                         _ _ _ H))).
Defined.

Lemma Connect_dial (W : World) (b : natsBroker) (o : natsGo.Options) :
  In (EvOptsConnect o) (events (run W Connect b)) -> o = dial_options b.
Proof.
  open_Connect.
  run_cases; intros Hin; each_event Hin; try discriminate;
    match goal with
    | H : EvOptsConnect _ = EvOptsConnect _ |- _ => injection H as <-
    end;
    unfold dial_options;
    match goal with
    | H : broker.TLSConfig_ _ = _ |- _ => rewrite H
    end; reflexivity.
Qed.

(** X4.  [Connect] dials at most once per call, and with the options
    assembled from the struct: the servers are the stored address list as
    it stands, the TLS configuration is the stored one, the secure flag is
    forced on whenever a TLS configuration is present, and the callbacks are
    those registered in the client options. *)
Theorem X4_Connect_dials_with_stored_options :
  forall (W : World) (b : natsBroker) (o : natsGo.Options),
    In (EvOptsConnect o) (events (run W Connect b)) ->
    o = dial_options b /\
    filter is_open (events (run W Connect b)) = [EvOptsConnect o].
Proof.
  intros W b o Hin.
  assert (Ho : o = dial_options b) by exact (Connect_dial W b o Hin).
  split; [exact Ho|]. subst o. revert Hin.
  open_Connect.
  run_cases; intros Hin; each_event Hin; try discriminate;
    match goal with
    | H : EvOptsConnect _ = EvOptsConnect _ |- _ => rewrite H
    end; reflexivity.
Qed.

Lemma X4_witness :
  In (EvOptsConnect (dial_options b_configured))
     (events (run calm Connect b_configured)) /\
  filter is_open (events (run calm Connect b_configured)) =
  [EvOptsConnect (dial_options b_configured)].
Proof.
  assert (H : In (EvOptsConnect (dial_options b_configured))
                 (events (run calm Connect b_configured))).
  { vm_compute. right. left. reflexivity. }
  split; [exact H|].
  exact (proj2 (@X4_Connect_dials_with_stored_options calm b_configured
                  (dial_options b_configured) H)).
Defined.

(** X5.  [Connect] always returns: it never panics and never waits on a
    channel.  It takes the write lock first and releases it last, on the
    error paths as well, and touches no lock in between. *)
Theorem X5_Connect_returns_and_unlocks (W : World) (b : natsBroker) :
  exists r b1 mid,
    run W Connect b = Returns r b1 (EvLock :: mid ++ [EvUnlock]) /\
    Forall (fun e => is_mutex_event e = false) mid.
Proof.
  open_Connect.
  run_cases;
    match goal with
    | |- exists r b1 mid, Returns ?r0 ?b0 (EvLock :: ?l) = _ /\ _ =>
        exists r0, b0, (removelast l)
    end; (split; [reflexivity|repeat constructor]).
Qed.

(** X6.  When a stream name is configured and [Connect] dials and
    succeeds, it has looked the stream up and then updated it with the
    configured settings; the stream information it stores is the one the
    update returned, next to the JetStream context it obtained.  It asks to
    add the stream only with the configured settings, and only after the
    lookup reported the stream as not found. *)
Theorem X6_Connect_ensures_stream (W : World) (b b1 : natsBroker) (tr : trace) :
  run W Connect b = Returns None b1 tr ->
  In (EvOptsConnect (dial_options b)) tr ->
  natsGo.Name (streamCfg b) <> "" ->
  exists js si,
    precedes (EvStreamInfo js (natsGo.Name (streamCfg b)))
      (EvUpdateStream js (streamCfg b)) tr /\
    W (EvUpdateStream js (streamCfg b)) = inl si /\
    streamInfo b1 = Some si /\
    jsCtx b1 = Some js /\
    (forall js' cfg,
        In (EvAddStream js' cfg) tr ->
        cfg = streamCfg b /\
        W (EvStreamInfo js' (natsGo.Name cfg)) = inr ErrStreamNotFound).
Proof.
  open_Connect.
  run_cases; intros Heq Hin Hname; same_outcome Heq;
    each_event Hin; try discriminate.
  all: try (exfalso; apply Hname; apply String.eqb_eq;
            match goal with
            | H : negb (_ =? _)%string = false |- _ =>
                apply negb_false_iff in H; exact H
            end).
  all: do 2 eexists; split; [in_order|];
    split; [eassumption|]; split; [reflexivity|]; split; [reflexivity|];
    intros js' cfg Hadd; each_event Hadd; try discriminate;
    (match goal with
     | H : EvAddStream _ _ = EvAddStream _ _ |- _ => injection H as <- <-
     end;
     split; [reflexivity|];
     match goal with
     | H : _ (EvStreamInfo _ _) = inr ?e, H' : errors_Is ?e _ = true |- _ =>
         rewrite H; destruct e; try discriminate H'; reflexivity
     end).
Qed.

Lemma X6_witness :
  run stream_missing Connect b_configured =
    Returns None (final (run stream_missing Connect b_configured))
      (events (run stream_missing Connect b_configured)) /\
  In (EvOptsConnect (dial_options b_configured))
     (events (run stream_missing Connect b_configured)) /\
  natsGo.Name (streamCfg b_configured) <> "" /\
  exists js si,
    precedes (EvStreamInfo js (natsGo.Name (streamCfg b_configured)))
      (EvUpdateStream js (streamCfg b_configured))
      (events (run stream_missing Connect b_configured)) /\
    stream_missing (EvUpdateStream js (streamCfg b_configured)) = inl si /\
    streamInfo (final (run stream_missing Connect b_configured)) = Some si /\
    jsCtx (final (run stream_missing Connect b_configured)) = Some js /\
    (forall js' cfg,
        In (EvAddStream js' cfg)
           (events (run stream_missing Connect b_configured)) ->
        cfg = streamCfg b_configured /\
        stream_missing (EvStreamInfo js' (natsGo.Name cfg)) = inr ErrStreamNotFound).
Proof.
  assert (H1 : run stream_missing Connect b_configured =
    Returns None (final (run stream_missing Connect b_configured))
      (events (run stream_missing Connect b_configured)))
    by (vm_compute; reflexivity).
  assert (H2 : In (EvOptsConnect (dial_options b_configured))
                  (events (run stream_missing Connect b_configured))).
  { vm_compute. right. left. reflexivity. }
  assert (H3 : natsGo.Name (streamCfg b_configured) <> "")
    by (vm_compute; discriminate).
  split; [exact H1|]. split; [exact H2|]. split; [exact H3|].
  exact (@X6_Connect_ensures_stream stream_missing b_configured _ _ H1 H2 H3).
Defined.

(** X7.  With no stream name configured, [Connect] makes no JetStream
    call at all and leaves the stream information and the JetStream context
    as they were. *)
Theorem X7_Connect_without_stream (W : World) (b : natsBroker) :
  natsGo.Name (streamCfg b) = "" ->
  Forall (fun e => is_stream_call e = false) (events (run W Connect b)) /\
  streamInfo (final (run W Connect b)) = streamInfo b /\
  jsCtx (final (run W Connect b)) = jsCtx b.
Proof.
  intros Hname. open_Connect. rewrite Hname. cbn.
  run_cases; (split; [repeat constructor|split; reflexivity]).
Qed.

Lemma X7_witness :
  natsGo.Name (streamCfg (NewBroker [])) = "" /\
  Forall (fun e => is_stream_call e = false)
    (events (run calm Connect (NewBroker []))).
Proof.
  split; [reflexivity|].
  exact (proj1 (@X7_Connect_without_stream calm (NewBroker []) eq_refl)).
Defined.

(** ** Programs that always return *)

Lemma straight_run {A : Type} (Q : event -> Prop) (W : World) (p : prog A) :
  straight Q p ->
  forall b, exists a b' tr, run W p b = Returns a b' tr /\ Forall Q tr.
Proof.
  induction 1 as [a|k Hk IH|f k Hk IH|e k He Hk IH]; intros b; simpl.
  - exists a, b, []. split; [reflexivity|constructor].
  - apply IH.
  - apply IH.
  - destruct (IH (W e) b) as (a & b' & tr & -> & Htr).
    exists a, b', (e :: tr). split; [reflexivity|constructor; assumption].
Qed.

Lemma straight_bind {A B : Type} (Q : event -> Prop) (p : prog A) (f : A -> prog B) :
  straight Q p -> (forall a, straight Q (f a)) -> straight Q (bind p f).
Proof. induction 1; intros Hf; simpl; try (constructor; auto); auto. Qed.

Ltac straight_line :=
  repeat first
    [ progress intros
    | progress cbv zeta
    | apply straight_bind
    | apply st_Ret
    | match goal with
      | |- straight _ get => apply st_Get; intros; apply st_Ret
      | |- straight _ (ret _) => apply st_Ret
      | |- straight _ (modify _) => apply st_Modify; apply st_Ret
      | |- straight ?Q (call ?e) =>
          apply (@st_Vis Q _ e); [|intros; apply st_Ret]
      | |- straight _ (match ?x with _ => _ end) => destruct x
      end ].

Lemma setOption_straight (opts : list broker.Option) :
  straight (fun e => e = EvMakeChan) (setOption opts).
Proof. unfold setOption, Once_Do, when. straight_line; reflexivity. Qed.

Lemma setOption_wiring (opts : list broker.Option) :
  keeps same_wiring (setOption opts).
Proof.
  unfold setOption, Once_Do, when.
  repeat first
    [ progress intros
    | progress cbv zeta
    | apply keeps_bind
    | apply keeps_get
    | apply keeps_ret
    | match goal with
      | |- keeps ?R (call ?e) => exact (keeps_call R e)
      end
    | apply keeps_modify; intros; repeat split
    | match goal with
      | |- keeps _ (match ?x with _ => _ end) => destruct x
      end ].
Qed.

Lemma same_wiring_refl (b : natsBroker) : same_wiring b b.
Proof. repeat split. Qed.

Lemma same_wiring_trans (a b c : natsBroker) :
  same_wiring a b -> same_wiring b c -> same_wiring a c.
Proof.
  intros (H1 & H2 & H3 & H4 & H5) (G1 & G2 & G3 & G4 & G5).
  repeat split; congruence.
Qed.

(** What [Init] does, in one equation: it runs [setOption], which always
    returns and whose only event is the allocation of the drain channel,
    then installs the tracers. *)
Lemma Init_run (W : World) (opts : list broker.Option) (b : natsBroker) :
  exists b1 tr,
    run W (setOption opts) b = Returns tt b1 tr /\
    Forall (fun e => e = EvMakeChan) tr /\
    same_wiring b b1 /\
    run W (Init opts) b = Returns None (with_tracers b1) tr.
Proof.
  destruct (straight_run W (setOption_straight opts) b) as (a & b1 & tr & Hrun & Htr).
  destruct a. exists b1, tr. split; [exact Hrun|]. split; [exact Htr|]. split.
  - pose proof (@keeps_run same_wiring same_wiring_refl same_wiring_trans _ W
                  (setOption opts) (setOption_wiring opts) b) as H.
    rewrite Hrun in H. exact H.
  - unfold Init. rewrite run_bind, Hrun. unfold with_tracers, when. cbn.
    destruct (broker.Tracings (options b1)); cbn;
      rewrite ?app_nil_r; reflexivity.
Qed.

(** ** What option application leaves behind *)

Lemma final_bind_step {A B : Type} (W : World) (P Q : natsBroker -> Prop)
    (p : prog A) (f : A -> prog B) (b : natsBroker) :
  (exists a b' tr, run W p b = Returns a b' tr /\ P b') ->
  (forall a b', P b' -> Q (final (run W (f a) b'))) ->
  Q (final (run W (bind p f) b)).
Proof.
  intros (a & b' & tr & Hrun & HP) Hf. rewrite run_bind, Hrun, final_after.
  apply Hf. exact HP.
Qed.

Ltac returns_here := do 3 eexists; split; [reflexivity|].

Lemma setOption_post (W : World) (opts : list broker.Option) (b : natsBroker) :
  let ctx := broker.Context (broker.apply opts (options b)) in
  let b' := final (run W (setOption opts) b) in
  broker.Context (options b') = ctx /\
  match context.Value ctx drainConnectionKey with
  | Some _ => drain_armed W b'
  | None => drain b' = drain b /\ closeCh b' = closeCh b
  end /\
  match context.Value ctx jetstreamConfKey with
  | Some (VStreamConfig cfg) => streamCfg b' = cfg
  | _ => streamCfg b' = streamCfg b
  end.
Proof.
  intros ctx b'. subst b'.
  set (P := fun x : natsBroker =>
              broker.Context (options x) = ctx /\ drain x = drain b /\
              closeCh x = closeCh b /\ streamCfg x = streamCfg b).
  set (P7 := fun x : natsBroker =>
               broker.Context (options x) = ctx /\ streamCfg x = streamCfg b /\
               match context.Value ctx drainConnectionKey with
               | Some _ => drain_armed W x
               | None => drain x = drain b /\ closeCh x = closeCh b
               end).
  unfold setOption.
  eapply (final_bind_step W P).
  { returns_here. repeat split. }
  intros _ b1 H1. eapply (final_bind_step W P).
  { unfold Once_Do. cbn. destruct (once b1); returns_here; exact H1. }
  intros _ b2 H2. apply final_get_bind. eapply (final_bind_step W P).
  { destruct (context.Value (broker.Context (options b2)) optionsKey) as [[]|];
      returns_here; exact H2. }
  intros _ b3 H3. apply final_get_bind. eapply (final_bind_step W P).
  { unfold when.
    destruct (Nat.eqb (Datatypes.length (broker.Addrs (options b3))) 0);
      returns_here; exact H3. }
  intros _ b4 H4. apply final_get_bind. eapply (final_bind_step W P).
  { unfold when. destruct (negb (broker.Secure (options b4)));
      returns_here; exact H4. }
  intros _ b5 H5. apply final_get_bind. eapply (final_bind_step W P).
  { destruct (broker.TLSConfig_ (options b5)); returns_here; exact H5. }
  intros _ b6 H6. apply final_get_bind. cbv zeta.
  eapply (final_bind_step W P7).
  { destruct H6 as (Hc & Hd & Hch & Hs). unfold P7. rewrite Hc.
    destruct (context.Value ctx drainConnectionKey); cbn.
    - returns_here. cbn. repeat split; assumption.
    - returns_here. repeat split; assumption. }
  intros _ b7 (Hc & Hs & Hd). apply final_get_bind. rewrite Hc.
  destruct (context.Value ctx jetstreamConfKey) as [[]|]; cbn;
    (split; [exact Hc|]); (split; [|try exact Hs; reflexivity]);
    destruct (context.Value ctx drainConnectionKey); exact Hd.
Qed.

Lemma with_tracers_armed (W : World) (b : natsBroker) :
  drain_armed W b -> drain_armed W (with_tracers b).
Proof.
  unfold with_tracers.
  destruct (Nat.ltb 0 (Datatypes.length (broker.Tracings (options b))));
    intros H; exact H.
Qed.

Lemma Init_final (W : World) (opts : list broker.Option) (b : natsBroker) :
  final (run W (Init opts) b) = with_tracers (final (run W (setOption opts) b)).
Proof.
  destruct (Init_run W opts b) as (b1 & tr & Hs & _ & _ & Hi).
  rewrite Hi, Hs. reflexivity.
Qed.

Lemma apply_snoc (opts : list broker.Option) (o : broker.Option)
    (x : broker.Options) :
  broker.apply (opts ++ [o]) x = o (broker.apply opts x).
Proof. unfold broker.apply. rewrite fold_left_app. reflexivity. Qed.

(** X8.  [Init] always returns nil.  It never calls the NATS client, it
    leaves the connection, the connected flag, the stream handles and the
    registry as they were, and when tracing options are configured it
    installs a producer and a consumer tracer built from them. *)
Theorem X8_Init_returns_nil_offline :
  forall (W : World) (opts : list broker.Option) (b : natsBroker),
    exists b1 tr,
      run W (Init opts) b = Returns None b1 tr /\
      Forall (fun e => network_io e = false) tr /\
      same_wiring b b1 /\
      (broker.Tracings (options b1) <> [] ->
       producerTracer b1 =
         Some (tracing.NewTracer tracing.SpanKindProducer "nats-producer"
                 (broker.Tracings (options b1))) /\
       consumerTracer b1 =
         Some (tracing.NewTracer tracing.SpanKindConsumer "nats-consumer"
                 (broker.Tracings (options b1)))).
Proof.
  intros W opts b.
  destruct (Init_run W opts b) as (b1 & tr & _ & Htr & Hw & Hrun).
  exists (with_tracers b1), tr. split; [exact Hrun|]. split; [|split].
  - eapply Forall_impl; [|exact Htr]. intros e ->. reflexivity.
  - unfold with_tracers.
    destruct (Nat.ltb 0 (Datatypes.length (broker.Tracings (options b1))));
      exact Hw.
  - unfold with_tracers.
    destruct (broker.Tracings (options b1)) eqn:E; simpl.
    + rewrite E. intros H. contradiction.
    + rewrite E. intros _. split; reflexivity.
Qed.

(** X9.  The stream configuration after [Init] is the one bound innermost
    under the JetStream key of the option context, and the previous one when
    the key is unbound or bound to something else; in particular a
    [WithJetStream] given last always takes effect. *)
Theorem X9_Init_stream_configuration :
  forall (W : World) (opts : list broker.Option) (b : natsBroker),
    match context.Value (broker.Context (broker.apply opts (options b)))
            jetstreamConfKey with
    | Some (VStreamConfig cfg) =>
        streamCfg (final (run W (Init opts) b)) = cfg
    | _ => streamCfg (final (run W (Init opts) b)) = streamCfg b
    end /\
    forall cfg,
      streamCfg (final (run W (Init (opts ++ [WithJetStream cfg])) b)) = cfg.
Proof.
  assert (Hgen : forall W opts b,
    match context.Value (broker.Context (broker.apply opts (options b)))
            jetstreamConfKey with
    | Some (VStreamConfig cfg) =>
        streamCfg (final (run W (Init opts) b)) = cfg
    | _ => streamCfg (final (run W (Init opts) b)) = streamCfg b
    end).
  { intros W opts b. rewrite Init_final.
    destruct (setOption_post W opts b) as (_ & _ & Hs).
    assert (Ht : forall x, streamCfg (with_tracers x) = streamCfg x).
    { intros x. unfold with_tracers.
      destruct (Nat.ltb 0 (Datatypes.length (broker.Tracings (options x))));
        reflexivity. }
    rewrite Ht. exact Hs. }
  intros W opts b. split; [apply Hgen|].
  intros cfg. pose proof (Hgen W (opts ++ [WithJetStream cfg]) b) as H.
  rewrite apply_snoc in H. exact H.
Qed.

(** X10.  When the drain key is bound in the option context, [Init] raises
    the drain flag, allocates the close channel and registers the three
    lifecycle callbacks; every connection [Connect] opens afterwards is
    dialled with those callbacks. *)
Theorem X10_drain_option_registers_callbacks :
  forall (W : World) (opts : list broker.Option) (b : natsBroker),
    context.Value (broker.Context (broker.apply opts (options b)))
      drainConnectionKey <> None ->
    drain_armed W (final (run W (Init opts) b)) /\
    forall (W' : World) (o : natsGo.Options),
      In (EvOptsConnect o)
         (events (run W' Connect (final (run W (Init opts) b)))) ->
      natsGo.ClosedCB o = Some natsGo.cb_onClose /\
      natsGo.AsyncErrorCB o = Some natsGo.cb_onAsyncError /\
      natsGo.DisconnectedErrCB o = Some natsGo.cb_onDisconnectedError.
Proof.
  intros W opts b Hkey.
  assert (Harmed : drain_armed W (final (run W (Init opts) b))).
  { rewrite Init_final. apply with_tracers_armed.
    destruct (setOption_post W opts b) as (_ & Hd & _).
    destruct (context.Value _ drainConnectionKey); [exact Hd|contradiction]. }
  split; [exact Harmed|].
  intros W' o Hin. apply Connect_dial in Hin. subst o.
  destruct Harmed as (_ & _ & H1 & H2 & H3). simpl. auto.
Qed.

Lemma X10_witness :
  context.Value (broker.Context (broker.apply [DrainConnection] (options (NewBroker []))))
    drainConnectionKey <> None /\
  drain_armed calm (final (run calm (Init [DrainConnection]) (NewBroker []))).
Proof.
  assert (H : context.Value
                (broker.Context (broker.apply [DrainConnection] (options (NewBroker []))))
                drainConnectionKey <> None) by (simpl; discriminate).
  split; [exact H|].
  exact (proj1 (@X10_drain_option_registers_callbacks calm [DrainConnection]
                  (NewBroker []) H)).
Defined.

(** ** Disconnect without drain *)

Lemma Disconnect_no_drain (W : World) (b : natsBroker) :
  drain b = false ->
  run W Disconnect b =
  Returns None (with_connected false (with_subscribers [] b))
    (EvLock :: EvSubscribersClear ::
     match conn b with
     | Some c => [EvConnClose c; EvUnlock]
     | None => [EvUnlock]
     end).
Proof.
  intros Hd. unfold Disconnect, when. cbn. rewrite Hd. cbn.
  destruct (conn b); cbn; reflexivity.
Qed.

Lemma Disconnect_again (W : World) (b : natsBroker) :
  drain b = false ->
  final (run W Disconnect (with_connected false (with_subscribers [] b))) =
  with_connected false (with_subscribers [] b).
Proof.
  intros Hd.
  rewrite (@Disconnect_no_drain W (with_connected false (with_subscribers [] b)) Hd).
  reflexivity.
Qed.

(** X11.  Without drain, [Disconnect] always returns nil: under the write
    lock it clears the registry, closes the connection if there is a
    handle, and lowers the connected flag; the handle itself stays.  A
    second [Disconnect] leaves the struct as the first one left it. *)
Theorem X11_Disconnect_without_drain :
  forall (W : World) (b : natsBroker),
    drain b = false ->
    run W Disconnect b =
    Returns None (with_connected false (with_subscribers [] b))
      (EvLock :: EvSubscribersClear ::
       match conn b with
       | Some c => [EvConnClose c; EvUnlock]
       | None => [EvUnlock]
       end) /\
    forall W' : World,
      final (run W' Disconnect (with_connected false (with_subscribers [] b))) =
      with_connected false (with_subscribers [] b).
Proof.
  intros W b Hd. split; [exact (Disconnect_no_drain W b Hd)|].
  intros W'. exact (Disconnect_again W' b Hd).
Qed.

Lemma X11_witness :
  drain b_plain = false /\
  run calm Disconnect b_plain =
  Returns None (with_connected false (with_subscribers [] b_plain))
    (EvLock :: EvSubscribersClear ::
     match conn b_plain with
     | Some c => [EvConnClose c; EvUnlock]
     | None => [EvUnlock]
     end).
Proof.
  assert (H : drain b_plain = false) by (vm_compute; reflexivity).
  split; [exact H|].
  exact (proj1 (@X11_Disconnect_without_drain calm b_plain H)).
Defined.

(** ** The drain channel on every broker the methods produce *)

Ltac frame_by tac :=
  repeat first
    [ progress intros
    | progress cbv zeta
    | apply keeps_bind
    | apply keeps_defer
    | apply keeps_get
    | apply keeps_ret
    | apply keeps_chan_send
    | apply keeps_Ret
    | apply keeps_Panic
    | match goal with
      | |- keeps ?R (call ?e) => exact (keeps_call R e)
      end
    | apply keeps_modify; intros; tac
    | match goal with
      | |- keeps _ (match ?x with _ => _ end) => destruct x
      end ].

Lemma same_drain_refl (b : natsBroker) : same_drain b b.
Proof. split; reflexivity. Qed.

Lemma same_drain_trans (a b c : natsBroker) :
  same_drain a b -> same_drain b c -> same_drain a c.
Proof. intros [H1 H2] [H3 H4]. split; congruence. Qed.

Lemma Connect_same_drain : keeps same_drain Connect.
Proof. unfold Connect, try_, when. frame_by ltac:(split; reflexivity). Qed.

Lemma Disconnect_same_drain : keeps same_drain Disconnect.
Proof. unfold Disconnect, when. frame_by ltac:(split; reflexivity). Qed.

Lemma Publish_same_drain ctx topic msg opts :
  keeps same_drain (Publish ctx topic msg opts).
Proof.
  unfold Publish, publish, try_, startProducerSpan, finishProducerSpan.
  frame_by ltac:(split; reflexivity).
Qed.

Lemma Subscribe_same_drain topic h binder opts :
  keeps same_drain (Subscribe topic h binder opts).
Proof. unfold Subscribe. frame_by ltac:(split; reflexivity). Qed.

Lemma same_drain_final {A : Type} (W : World) (p : prog A) (b : natsBroker) :
  keeps same_drain p -> same_drain b (final (run W p b)).
Proof.
  intros H. apply keeps_run; [apply same_drain_refl|apply same_drain_trans|exact H].
Qed.

Lemma drain_channel_Init (W : World) (opts : list broker.Option) (b : natsBroker) :
  (drain b = true -> closeCh b <> nilChan) ->
  drain (final (run W (Init opts) b)) = true ->
  closeCh (final (run W (Init opts) b)) <> nilChan.
Proof.
  intros Hb. rewrite Init_final.
  destruct (setOption_post W opts b) as (_ & Hd & _).
  set (b1 := final (run W (setOption opts) b)) in *.
  assert (H1 : drain b1 = true -> closeCh b1 <> nilChan).
  { destruct (context.Value _ drainConnectionKey).
    - destruct Hd as (_ & Hch & _). intros _. rewrite Hch. discriminate.
    - destruct Hd as (Hd1 & Hd2). rewrite Hd1, Hd2. exact Hb. }
  unfold with_tracers.
  destruct (Nat.ltb 0 (Datatypes.length (broker.Tracings (options b1))));
    exact H1.
Qed.

Lemma drain_channel_kept (b b' : natsBroker) :
  same_drain b b' ->
  (drain b = true -> closeCh b <> nilChan) ->
  drain b' = true -> closeCh b' <> nilChan.
Proof. intros [Hd Hc] H. rewrite Hd, Hc. exact H. Qed.

(** X12.  On every broker obtained from a fresh one by any sequence of
    Init, Connect, Disconnect, Publish and Subscribe, a raised drain flag
    comes with an allocated close channel: the send in [Disconnect] and in
    the callbacks is never a send on a nil channel. *)
Theorem X12_drain_flag_comes_with_channel (b : natsBroker) :
  reachable b -> drain b = true -> closeCh b <> nilChan.
Proof.
  induction 1 as [opts|W opts b H IH|W b H IH|W b H IH
                 |W ctx topic msg opts b H IH|W topic h binder opts b H IH].
  - discriminate.
  - apply drain_channel_Init. exact IH.
  - apply (drain_channel_kept (same_drain_final W b Connect_same_drain) IH).
  - apply (drain_channel_kept (same_drain_final W b Disconnect_same_drain) IH).
  - apply (drain_channel_kept
             (same_drain_final W b (Publish_same_drain ctx topic msg opts)) IH).
  - apply (drain_channel_kept
             (same_drain_final W b (Subscribe_same_drain topic h binder opts)) IH).
Qed.

Lemma X12_witness :
  reachable b_drain /\ drain b_drain = true /\ closeCh b_drain <> nilChan.
Proof.
  assert (H1 : reachable b_drain).
  { assert (E : b_drain =
                 final (run calm Connect
                          (final (run calm (Init [DrainConnection]) (NewBroker [])))))
      by (vm_compute; reflexivity).
    rewrite E. apply re_Connect. apply re_Init. apply re_new. }
  assert (H2 : drain b_drain = true) by (vm_compute; reflexivity).
  split; [exact H1|]. split; [exact H2|].
  exact (@X12_drain_flag_comes_with_channel b_drain H1 H2).
Defined.

(** X13.  On every such broker a raised connected flag comes with a
    connection handle. *)
Theorem X13_connected_flag_comes_with_handle :
  forall b : natsBroker,
    reachable b -> connected b = true -> conn b <> None.
Proof. exact reachable_Inv. Qed.

Lemma X13_witness :
  reachable b_plain /\ connected b_plain = true /\ conn b_plain <> None.
Proof.
  assert (H1 : reachable b_plain).
  { assert (E : b_plain =
                 final (run calm Connect (final (run calm (Init []) (NewBroker [])))))
      by (vm_compute; reflexivity).
    rewrite E. apply re_Connect. apply re_Init. apply re_new. }
  assert (H2 : connected b_plain = true) by (vm_compute; reflexivity).
  split; [exact H1|]. split; [exact H2|].
  exact (@X13_connected_flag_comes_with_handle b_plain H1 H2).
Defined.

(** ** Publish *)

Lemma addHeaders_Subject (hs : Header) (x : natsGo.Msg) :
  natsGo.Subject (addHeaders hs x) = natsGo.Subject x.
Proof.
  unfold addHeaders. revert x.
  induction hs as [|[k v] hs IH]; intros x; simpl; [reflexivity|].
  rewrite IH. revert x. induction v as [|vv v IHv]; intros x; simpl;
    [reflexivity|]. rewrite IHv. reflexivity.
Qed.

Lemma addHeaders_Data (hs : Header) (x : natsGo.Msg) :
  natsGo.Data (addHeaders hs x) = natsGo.Data x.
Proof.
  unfold addHeaders. revert x.
  induction hs as [|[k v] hs IH]; intros x; simpl; [reflexivity|].
  rewrite IH. revert x. induction v as [|vv v IHv]; intros x; simpl;
    [reflexivity|]. rewrite IHv. reflexivity.
Qed.

Lemma outbound_Subject ctx topic buf opts :
  natsGo.Subject (outbound ctx topic buf opts) = topic.
Proof.
  unfold outbound.
  destruct (context.Value _ headersKey) as [[]|]; try reflexivity.
  apply addHeaders_Subject.
Qed.

Lemma outbound_Data ctx topic buf opts :
  natsGo.Data (outbound ctx topic buf opts) = buf.
Proof.
  unfold outbound.
  destruct (context.Value _ headersKey) as [[]|]; try reflexivity.
  apply addHeaders_Data.
Qed.

(** [publish] with the message it builds named. *)
Lemma publish_outbound ctx topic buf opts :
  publish ctx topic buf opts =
  (call EvRLock ;;
   defer_ (call EvRUnlock)
     (b <- get ;;
      match conn b with
      | None => ret (Some (errors_New "not connected"))
      | Some c =>
          '(span, m) <- startProducerSpan
                          (broker.pContext (publishOptionsOf ctx opts))
                          (outbound ctx topic buf opts) ;;
          e <- match streamInfo b with
               | Some _ =>
                   match jsCtx b with
                   | Some js => call (EvJsPublishMsg js m)
                   | None => Panic "nil JetStreamContext"
                   end
               | None => call (EvConnPublishMsg c m)
               end ;;
          let e := option_map foreign e in
          finishProducerSpan span e ;;
          ret e
      end)).
Proof. reflexivity. Qed.

Ltac open_publish :=
  rewrite publish_outbound;
  unfold startProducerSpan, finishProducerSpan;
  cbn -[outbound publishOptionsOf].

(** X14.  On a broker with a connection handle and no producer tracer, a
    message that serialises is published exactly once, carrying the topic,
    the serialised bytes and the caller's headers: through the JetStream
    context when stream information is stored, on the plain connection
    otherwise.  Publish returns what the client returned and leaves the
    struct alone; a missing JetStream context panics, with the read lock
    released. *)
Theorem X14_Publish_routes_message (W : World) (b : natsBroker) (c : Conn)
    ctx topic msg opts (buf : bytes) :
  conn b = Some c ->
  producerTracer b = None ->
  W (EvMarshal (broker.Codec (options b)) msg) = inl buf ->
  let m := outbound ctx topic buf opts in
  run W (Publish ctx topic msg opts) b =
  match streamInfo b, jsCtx b with
  | None, _ =>
      Returns (option_map foreign (W (EvConnPublishMsg c m))) b
        [EvMarshal (broker.Codec (options b)) msg; EvRLock;
         EvConnPublishMsg c m; EvRUnlock]
  | Some _, Some js =>
      Returns (option_map foreign (W (EvJsPublishMsg js m))) b
        [EvMarshal (broker.Codec (options b)) msg; EvRLock;
         EvJsPublishMsg js m; EvRUnlock]
  | Some _, None =>
      Panics "nil JetStreamContext" b
        [EvMarshal (broker.Codec (options b)) msg; EvRLock; EvRUnlock]
  end.
Proof.
  intros Hc Ht Hm m. subst m.
  unfold Publish, try_. cbn -[publish]. rewrite Hm. open_publish.
  rewrite Hc. cbn -[outbound publishOptionsOf].
  rewrite Ht. cbn -[outbound publishOptionsOf].
  destruct (streamInfo b); [destruct (jsCtx b)|];
    cbn -[outbound publishOptionsOf]; rewrite ?Ht;
    cbn -[outbound publishOptionsOf]; reflexivity.
Qed.

Lemma X14_witness :
  conn b_stream = Some (connPtr 1) /\
  producerTracer b_stream = None /\
  calm (EvMarshal (broker.Codec (options b_stream))
          (AnyBytes (list_byte_of_string "id=1")))
    = inl (list_byte_of_string "id=1") /\
  run calm (Publish context.Background "orders.created"
              (AnyBytes (list_byte_of_string "id=1")) []) b_stream =
  match streamInfo b_stream, jsCtx b_stream with
  | None, _ =>
      Returns
        (option_map foreign
           (calm (EvConnPublishMsg (connPtr 1)
                    (outbound context.Background "orders.created"
                       (list_byte_of_string "id=1") []))))
        b_stream
        [EvMarshal (broker.Codec (options b_stream))
           (AnyBytes (list_byte_of_string "id=1")); EvRLock;
         EvConnPublishMsg (connPtr 1)
           (outbound context.Background "orders.created"
              (list_byte_of_string "id=1") []);
         EvRUnlock]
  | Some _, Some js =>
      Returns
        (option_map foreign
           (calm (EvJsPublishMsg js
                    (outbound context.Background "orders.created"
                       (list_byte_of_string "id=1") []))))
        b_stream
        [EvMarshal (broker.Codec (options b_stream))
           (AnyBytes (list_byte_of_string "id=1")); EvRLock;
         EvJsPublishMsg js
           (outbound context.Background "orders.created"
              (list_byte_of_string "id=1") []);
         EvRUnlock]
  | Some _, None =>
      Panics "nil JetStreamContext" b_stream
        [EvMarshal (broker.Codec (options b_stream))
           (AnyBytes (list_byte_of_string "id=1")); EvRLock; EvRUnlock]
  end.
Proof.
  assert (H1 : conn b_stream = Some (connPtr 1)) by (vm_compute; reflexivity).
  assert (H2 : producerTracer b_stream = None) by (vm_compute; reflexivity).
  assert (H3 : calm (EvMarshal (broker.Codec (options b_stream))
                       (AnyBytes (list_byte_of_string "id=1")))
               = inl (list_byte_of_string "id=1")) by reflexivity.
  split; [exact H1|]. split; [exact H2|]. split; [exact H3|].
  exact (@X14_Publish_routes_message calm b_stream (connPtr 1)
           context.Background "orders.created"
           (AnyBytes (list_byte_of_string "id=1")) []
           (list_byte_of_string "id=1") H1 H2 H3).
Defined.

(** X15.  On a broker with a producer tracer, the publish call is
    bracketed by the span: the span is started on the message before it is
    sent, the message goes out with the headers the tracer left on it, and
    the span is ended after the send with the same error Publish returns.
    When the JetStream context is missing the call panics after the span
    start, and the span is never ended. *)
Theorem X15_Publish_span_brackets_send (W : World) (b : natsBroker) (c : Conn)
    (tracer : tracing.Tracer) ctx topic msg opts (buf : bytes) :
  conn b = Some c ->
  producerTracer b = Some tracer ->
  W (EvMarshal (broker.Codec (options b)) msg) = inl buf ->
  let m := outbound ctx topic buf opts in
  let start :=
    EvTracerStart tracer (broker.pContext (publishOptionsOf ctx opts)) m
      (producerAttrs topic) in
  let span := snd (fst (W start)) in
  let m' := with_Header (snd (W start)) m in
  run W (Publish ctx topic msg opts) b =
  match streamInfo b, jsCtx b with
  | None, _ =>
      let r := option_map foreign (W (EvConnPublishMsg c m')) in
      Returns r b
        [EvMarshal (broker.Codec (options b)) msg; EvRLock; start;
         EvConnPublishMsg c m';
         EvTracerEnd tracer context.Background (Some span) r; EvRUnlock]
  | Some _, Some js =>
      let r := option_map foreign (W (EvJsPublishMsg js m')) in
      Returns r b
        [EvMarshal (broker.Codec (options b)) msg; EvRLock; start;
         EvJsPublishMsg js m';
         EvTracerEnd tracer context.Background (Some span) r; EvRUnlock]
  | Some _, None =>
      Panics "nil JetStreamContext" b
        [EvMarshal (broker.Codec (options b)) msg; EvRLock; start; EvRUnlock]
  end.
Proof.
  intros Hc Ht Hm m start span m'. subst m' span start m.
  unfold Publish, try_. cbn -[publish]. rewrite Hm. open_publish.
  rewrite Hc. cbn -[outbound publishOptionsOf].
  rewrite Ht. unfold NewMessageCarrier. rewrite outbound_Subject.
  cbn -[outbound publishOptionsOf].
  destruct (W (EvTracerStart _ _ _ _)) as [[sctx span] h].
  cbn -[outbound publishOptionsOf].
  destruct (streamInfo b); [destruct (jsCtx b)|];
    cbn -[outbound publishOptionsOf]; rewrite ?Ht;
    cbn -[outbound publishOptionsOf]; reflexivity.
Qed.

Lemma X15_witness :
  conn b_traced = Some (connPtr 1) /\
  producerTracer b_traced =
    Some (tracing.NewTracer tracing.SpanKindProducer "nats-producer" [0]) /\
  calm (EvMarshal (broker.Codec (options b_traced))
          (AnyBytes (list_byte_of_string "id=1")))
    = inl (list_byte_of_string "id=1") /\
  events (run calm (Publish context.Background "orders.created"
                      (AnyBytes (list_byte_of_string "id=1")) []) b_traced) =
  [EvMarshal None (AnyBytes (list_byte_of_string "id=1")); EvRLock;
   EvTracerStart
     (tracing.NewTracer tracing.SpanKindProducer "nats-producer" [0])
     context.Background order_created (producerAttrs "orders.created");
   EvConnPublishMsg (connPtr 1) order_created;
   EvTracerEnd
     (tracing.NewTracer tracing.SpanKindProducer "nats-producer" [0])
     context.Background (Some (spanRef 1)) None;
   EvRUnlock].
Proof.
  assert (H1 : conn b_traced = Some (connPtr 1)) by (vm_compute; reflexivity).
  assert (H2 : producerTracer b_traced =
    Some (tracing.NewTracer tracing.SpanKindProducer "nats-producer" [0]))
    by (vm_compute; reflexivity).
  assert (H3 : calm (EvMarshal (broker.Codec (options b_traced))
                       (AnyBytes (list_byte_of_string "id=1")))
               = inl (list_byte_of_string "id=1")) by reflexivity.
  split; [exact H1|]. split; [exact H2|]. split; [exact H3|].
  rewrite (@X15_Publish_span_brackets_send calm b_traced (connPtr 1)
             (tracing.NewTracer tracing.SpanKindProducer "nats-producer" [0])
             context.Background "orders.created"
             (AnyBytes (list_byte_of_string "id=1")) []
             (list_byte_of_string "id=1") H1 H2 H3).
  vm_compute. reflexivity.
Defined.

(** X16.  Publish never waits on a channel and never changes the struct.
    Whether it returns or panics, every read lock it took is released by
    the end of the call. *)
Theorem X16_Publish_releases_read_lock (W : World) (b : natsBroker) ctx topic msg opts :
  (forall b' tr, run W (Publish ctx topic msg opts) b <> Blocks b' tr) /\
  rlocks_held (events (run W (Publish ctx topic msg opts) b)) = 0 /\
  final (run W (Publish ctx topic msg opts) b) = b.
Proof.
  unfold Publish, try_. cbn -[publish].
  destruct (W (EvMarshal _ _)) as [buf|e];
    [|split; [intros; discriminate|split; reflexivity]].
  open_publish.
  run_cases; (split; [intros; discriminate|split; reflexivity]).
Qed.

(** X17.  Subscribe never waits on a channel.  When it returns, every read
    lock it took has been released; when it panics (a stream is stored but
    the JetStream context is missing) it does so between taking the second
    read lock and releasing it, so one read lock stays held. *)
Theorem X17_Subscribe_read_lock (W : World) (b : natsBroker) topic h binder opts :
  (forall b' tr, run W (Subscribe topic h binder opts) b <> Blocks b' tr) /\
  rlocks_held (events (run W (Subscribe topic h binder opts) b)) =
  match run W (Subscribe topic h binder opts) b with
  | Panics _ _ _ => 1
  | _ => 0
  end.
Proof.
  unfold Subscribe. cbn.
  run_cases; (split; [intros; discriminate|reflexivity]).
Qed.

(** ** The headers of an outgoing message *)

Lemma Header_Add_fresh (h0 : Header) (k v : string) :
  ~ In k (map fst h0) -> Header_Add h0 k v = h0 ++ [(k, [v])].
Proof.
  induction h0 as [|[k' vs] h0 IH]; intros Hk; simpl; [reflexivity|].
  destruct (String.eqb_spec k k') as [->|Hne].
  - exfalso. apply Hk. left. reflexivity.
  - rewrite IH; [reflexivity|]. intros Hin. apply Hk. right. exact Hin.
Qed.

Lemma Header_Add_last (h0 : Header) (k : string) (vs : list string) (v : string) :
  ~ In k (map fst h0) ->
  Header_Add (h0 ++ [(k, vs)]) k v = h0 ++ [(k, vs ++ [v])].
Proof.
  induction h0 as [|[k' vs'] h0 IH]; intros Hk; simpl.
  - rewrite String.eqb_refl. reflexivity.
  - destruct (String.eqb_spec k k') as [->|Hne].
    + exfalso. apply Hk. left. reflexivity.
    + rewrite IH; [reflexivity|]. intros Hin. apply Hk. right. exact Hin.
Qed.

Lemma add_values_last (k : string) (v vs : list string) (h0 : Header)
    (x : natsGo.Msg) :
  ~ In k (map fst h0) ->
  natsGo.Header_ x = h0 ++ [(k, vs)] ->
  natsGo.Header_
    (fold_left
       (fun m vv => with_Header (Header_Add (natsGo.Header_ m) k vv) m) v x)
  = h0 ++ [(k, vs ++ v)].
Proof.
  intros Hk. revert vs x.
  induction v as [|vv v IH]; intros vs x Hx; simpl.
  - rewrite app_nil_r. exact Hx.
  - rewrite (IH (vs ++ [vv])).
    + rewrite <- app_assoc. reflexivity.
    + simpl. rewrite Hx. apply Header_Add_last. exact Hk.
Qed.

Lemma add_values_fresh (k : string) (v : list string) (x : natsGo.Msg) :
  ~ In k (map fst (natsGo.Header_ x)) ->
  natsGo.Header_
    (fold_left
       (fun m vv => with_Header (Header_Add (natsGo.Header_ m) k vv) m) v x)
  = natsGo.Header_ x ++ filter has_values [(k, v)].
Proof.
  intros Hk. destruct v as [|vv v]; simpl.
  - rewrite app_nil_r. reflexivity.
  - rewrite (@add_values_last k v [vv] (natsGo.Header_ x)).
    + reflexivity.
    + exact Hk.
    + simpl. apply Header_Add_fresh. exact Hk.
Qed.

Lemma addHeaders_Header (hs : Header) (x : natsGo.Msg) :
  NoDup (map fst hs) ->
  (forall k, In k (map fst hs) -> ~ In k (map fst (natsGo.Header_ x))) ->
  natsGo.Header_ (addHeaders hs x) = natsGo.Header_ x ++ filter has_values hs.
Proof.
  unfold addHeaders. revert x.
  induction hs as [|[k v] hs IH]; intros x Hnd Hfresh; simpl.
  - rewrite app_nil_r. reflexivity.
  - inversion Hnd as [|? ? Hk Hnd']; subst.
    assert (Hx : ~ In k (map fst (natsGo.Header_ x))).
    { apply Hfresh. left. reflexivity. }
    pose proof (@add_values_fresh k v x Hx) as Hstep.
    rewrite IH.
    + rewrite Hstep. rewrite <- app_assoc. simpl.
      destruct (has_values (k, v)); reflexivity.
    + exact Hnd'.
    + intros k' Hk' Hin. rewrite Hstep in Hin.
      rewrite map_app in Hin. apply in_app_or in Hin. destruct Hin as [Hin|Hin].
      * apply (Hfresh k'); [right; exact Hk'|exact Hin].
      * simpl in Hin. unfold has_values in Hin. simpl in Hin.
        destruct v; simpl in Hin; [destruct Hin|].
        destruct Hin as [<-|[]]. apply Hk. exact Hk'.
Qed.

Lemma publishOptionsOf_snoc ctx (opts : list broker.PublishOption)
    (o : broker.PublishOption) :
  publishOptionsOf ctx (opts ++ [o]) = o (publishOptionsOf ctx opts).
Proof. unfold publishOptionsOf. rewrite fold_left_app. reflexivity. Qed.

(** X18.  The message Publish builds carries the topic as its subject and
    the serialised bytes as its data.  With the headers option given last
    and no key listed twice, its header holds exactly the supplied entries
    that have at least one value, each with its values in the order given;
    entries without a value leave no trace. *)
Theorem X18_outgoing_message_headers ctx topic buf (opts : list broker.PublishOption)
    (headers : Header) :
  NoDup (map fst headers) ->
  outbound ctx topic buf (opts ++ [WithHeaders headers]) =
  {| natsGo.Subject := topic; natsGo.Data := buf;
     natsGo.Header_ := filter has_values headers |}.
Proof.
  intros Hnd.
  pose proof (outbound_Subject ctx topic buf (opts ++ [WithHeaders headers])) as Hs.
  pose proof (outbound_Data ctx topic buf (opts ++ [WithHeaders headers])) as Hd.
  assert (Hh : natsGo.Header_ (outbound ctx topic buf (opts ++ [WithHeaders headers]))
               = filter has_values headers).
  { unfold outbound. rewrite publishOptionsOf_snoc. simpl.
    rewrite addHeaders_Header; [reflexivity|exact Hnd|].
    intros k _ Hin. exact Hin. }
  destruct (outbound ctx topic buf (opts ++ [WithHeaders headers])).
  simpl in *. subst. reflexivity.
Qed.

Lemma X18_witness :
  NoDup (map fst [("trace-id", ["abc"]); ("tags", ["a"; "b"]); ("empty", [])]) /\
  outbound context.Background "orders.created" (list_byte_of_string "id=1")
    [WithHeaders [("trace-id", ["abc"]); ("tags", ["a"; "b"]); ("empty", [])]]
  = {| natsGo.Subject := "orders.created";
       natsGo.Data := list_byte_of_string "id=1";
       natsGo.Header_ := [("trace-id", ["abc"]); ("tags", ["a"; "b"])] |}.
Proof.
  assert (H : NoDup (map fst [("trace-id", ["abc"]); ("tags", ["a"; "b"]);
                              ("empty", @nil string)])).
  { simpl. repeat constructor; simpl; intuition discriminate. }
  split; [exact H|].
  exact (@X18_outgoing_message_headers context.Background "orders.created"
           (list_byte_of_string "id=1") []
           [("trace-id", ["abc"]); ("tags", ["a"; "b"]); ("empty", [])] H).
Defined.

Lemma outbound_plain ctx topic buf (opts : list broker.PublishOption) :
  context.Value (broker.pContext (publishOptionsOf ctx opts)) headersKey = None ->
  outbound ctx topic buf opts =
  {| natsGo.Subject := topic; natsGo.Data := buf; natsGo.Header_ := [] |}.
Proof. intros H. unfold outbound. rewrite H. reflexivity. Qed.

(** ** Subscribe and the registry *)

(** X19.  When Subscribe returns an error it returns no subscriber, adds
    nothing to the registry and leaves the struct as it was.  When it
    returns no error, it made exactly one native subscribe call, the
    subscriber it returns wraps the subscription that call handed back and
    the subscribe options as applied to the defaults, and that subscriber
    was added to the registry under the topic, as its last entry. *)
Theorem X19_Subscribe_registers_on_success (W : World)
    (b b1 : natsBroker) topic h binder opts
    (osub : option subscriber) (oerr : option error) (tr : trace) :
  run W (Subscribe topic h binder opts) b = Returns (osub, oerr) b1 tr ->
  match oerr with
  | Some _ =>
      osub = None /\ b1 = b /\
      Forall (fun ev => is_registry_add ev = false) tr
  | None =>
      exists subs ev,
        osub = Some subs /\
        tr = [EvRLock; EvRUnlock; EvRLock; ev; EvRUnlock;
              EvSubscribersAdd topic subs] /\
        b1 = with_subscribers (subscribers b ++ [(topic, subs)]) b /\
        is_subscribe_call ev = true /\
        subscription_of W ev = s subs /\
        s subs <> None /\
        sub_options subs = subscribeOptionsOf opts
  end.
Proof.
  unfold subscribeOptionsOf, Subscribe. cbn.
  run_cases; intros Heq; same_outcome Heq.
  all: try (split; [reflexivity|split; [reflexivity|repeat constructor]]).
  all: do 2 eexists; split; [reflexivity|]; split; [reflexivity|];
    split; [reflexivity|]; split; [reflexivity|]; split;
    [unfold subscription_of;
     match goal with
     | H : _ = inl _ |- _ => rewrite H
     end; reflexivity|];
    split; [discriminate|reflexivity].
Qed.

Lemma X19_witness :
  run calm (Subscribe "orders.*" (handlerFn 1) None [broker.WithQueueName "workers"])
    b_plain =
  Returns
    (Some {| s := Some (subscriptionPtr 1);
             sub_options := subscribeOptionsOf [broker.WithQueueName "workers"] |},
     None)
    (final (run calm (Subscribe "orders.*" (handlerFn 1) None
                        [broker.WithQueueName "workers"]) b_plain))
    (events (run calm (Subscribe "orders.*" (handlerFn 1) None
                         [broker.WithQueueName "workers"]) b_plain)) /\
  exists subs ev,
    Some {| s := Some (subscriptionPtr 1);
            sub_options := subscribeOptionsOf [broker.WithQueueName "workers"] |}
      = Some subs /\
    events (run calm (Subscribe "orders.*" (handlerFn 1) None
                        [broker.WithQueueName "workers"]) b_plain) =
      [EvRLock; EvRUnlock; EvRLock; ev; EvRUnlock;
       EvSubscribersAdd "orders.*" subs] /\
    final (run calm (Subscribe "orders.*" (handlerFn 1) None
                       [broker.WithQueueName "workers"]) b_plain) =
      with_subscribers (subscribers b_plain ++ [("orders.*", subs)]) b_plain /\
    is_subscribe_call ev = true /\
    subscription_of calm ev = s subs /\
    s subs <> None /\
    sub_options subs = subscribeOptionsOf [broker.WithQueueName "workers"].
Proof.
  assert (H : run calm (Subscribe "orders.*" (handlerFn 1) None
                          [broker.WithQueueName "workers"]) b_plain =
    Returns
      (Some {| s := Some (subscriptionPtr 1);
               sub_options := subscribeOptionsOf [broker.WithQueueName "workers"] |},
       None)
      (final (run calm (Subscribe "orders.*" (handlerFn 1) None
                          [broker.WithQueueName "workers"]) b_plain))
      (events (run calm (Subscribe "orders.*" (handlerFn 1) None
                           [broker.WithQueueName "workers"]) b_plain)))
    by (vm_compute; reflexivity).
  split; [exact H|].
  exact (@X19_Subscribe_registers_on_success calm b_plain _ "orders.*"
           (handlerFn 1) None [broker.WithQueueName "workers"] _ None _ H).
Defined.

(** ** More on the per-message callback *)

Ltac thin_trace :=
  repeat match goal with
         | |- Forall _ (_ :: _) => constructor
         | |- Forall _ [] => constructor
         end.

(** X20.  With auto-acknowledge switched off, the callback makes no call
    into the NATS client at all: the message is never acknowledged,
    whatever the codec and the handler do. *)
Theorem X20_manual_ack_never_acknowledges (W : World) (b : natsBroker) (cb : callback)
    (msg : natsGo.Msg) :
  broker.AutoAck (cb_options cb) = false ->
  Forall (fun ev => network_io ev = false) (events (run W (fn cb msg) b)).
Proof.
  intros Hack. open_fn. rewrite Hack. cbn.
  run_cases; thin_trace; reflexivity.
Qed.

Lemma X20_witness :
  broker.AutoAck (cb_options cb_manual) = false /\
  Forall (fun ev => network_io ev = false)
    (events (run handler_fails (fn cb_manual order_created) b_traced)).
Proof.
  split; [reflexivity|].
  exact (@X20_manual_ack_never_acknowledges handler_fails b_traced cb_manual
           order_created eq_refl).
Defined.

(** X21.  The callback never writes the broker struct and never waits on a
    channel; the only call it can make into the NATS client is the
    acknowledgement, and it acknowledges at most once per message. *)
Theorem X21_callback_leaves_broker_alone (W : World) (b : natsBroker) (cb : callback)
    (msg : natsGo.Msg) :
  final (run W (fn cb msg) b) = b /\
  (forall b' tr, run W (fn cb msg) b <> Blocks b' tr) /\
  Forall (fun ev => network_io ev = true -> is_ack ev = true)
    (events (run W (fn cb msg) b)) /\
  length (filter is_ack (events (run W (fn cb msg) b))) <= 1.
Proof.
  open_fn.
  run_cases; (split; [reflexivity|]); (split; [intros; discriminate|]);
    (split; [thin_trace; intros; first [reflexivity|discriminate]|]);
    simpl; auto.
Qed.

(** X22.  The callback asks the codec to decode at most once, with the
    broker's codec and the data of the delivered message; the target is the
    raw data when no binder was given and the value the binder produced
    otherwise. *)
Theorem X22_callback_decodes_message_data (W : World) (b : natsBroker) (cb : callback)
    (msg : natsGo.Msg) codec data target :
  In (EvUnmarshal codec data target) (events (run W (fn cb msg) b)) ->
  codec = broker.Codec (options b) /\
  data = natsGo.Data msg /\
  match cb_binder cb with
  | None => target = AnyBytes (natsGo.Data msg)
  | Some bd => target = W (EvBinder bd)
  end /\
  length (filter is_decode_call (events (run W (fn cb msg) b))) = 1.
Proof.
  open_fn.
  run_cases; intros Hin; each_event Hin; try discriminate;
    match goal with
    | H : EvUnmarshal _ _ _ = EvUnmarshal _ _ _ |- _ =>
        injection H as <- <- <-
    end;
    repeat split; try reflexivity; try congruence.
Qed.

Lemma X22_witness :
  In (EvUnmarshal (Some {| encoding.Name := kProto.Name |})
        (natsGo.Data order_created) (AnyProto 1))
     (events (run calm (fn cb_bound order_created) b_proto)) /\
  AnyProto 1 = calm (EvBinder (binderFn 1)).
Proof.
  assert (H : In (EvUnmarshal (Some {| encoding.Name := kProto.Name |})
                    (natsGo.Data order_created) (AnyProto 1))
                 (events (run calm (fn cb_bound order_created) b_proto))).
  { vm_compute. right. left. reflexivity. }
  split; [exact H|].
  exact (proj1 (proj2 (proj2
    (@X22_callback_decodes_message_data calm b_proto cb_bound order_created
       _ _ _ H)))).
Defined.

(** X23.  The user handler is called at most once per message, and only
    with a message that decoded: it is the handler given to Subscribe, and
    the publication it receives carries the subject of the delivered
    message as topic, the headers of the delivered message, the decoded
    body and no error.  Without a consumer tracer its context is the
    subscribe context. *)
Theorem X23_handler_gets_decoded_message (W : World) (b : natsBroker) (cb : callback)
    (msg : natsGo.Msg) h ctx pub :
  In (EvHandler h ctx pub) (events (run W (fn cb msg) b)) ->
  h = cb_handler cb /\
  t pub = natsGo.Subject msg /\
  broker.Headers (m pub) = natsGo.Header_ msg /\
  err pub = None /\
  decoded W (run W (fn cb msg) b) (broker.Body (m pub)) /\
  (consumerTracer b = None -> ctx = broker.sContext (cb_options cb)) /\
  length (filter is_handler_call (events (run W (fn cb msg) b))) = 1.
Proof.
  unfold decoded. open_fn.
  run_cases; intros Hin; each_event Hin; try discriminate;
    match goal with
    | H : EvHandler _ _ _ = EvHandler _ _ _ |- _ =>
        injection H as <- <- <-
    end;
    (split; [reflexivity|]); (split; [reflexivity|]);
    (split; [reflexivity|]); (split; [reflexivity|]);
    (split; [do 3 eexists; split; [in_trace|eassumption]|]);
    (split; [intros; first [reflexivity|discriminate]|reflexivity]).
Qed.

Lemma X23_witness :
  In (EvHandler (handlerFn 1) context.Background
        {| t := "orders.created";
           m := {| broker.Headers := [];
                   broker.Body := AnyBytes (natsGo.Data order_created) |};
           err := None |})
     (events (run calm (fn cb_plain order_created) b_plain)) /\
  length (filter is_handler_call
            (events (run calm (fn cb_plain order_created) b_plain))) = 1.
Proof.
  assert (H : In (EvHandler (handlerFn 1) context.Background
                    {| t := "orders.created";
                       m := {| broker.Headers := [];
                               broker.Body := AnyBytes (natsGo.Data order_created) |};
                       err := None |})
                 (events (run calm (fn cb_plain order_created) b_plain))).
  { vm_compute. right. left. reflexivity. }
  split; [exact H|].
  exact (proj2 (proj2 (proj2 (proj2 (proj2 (proj2
    (@X23_handler_gets_decoded_message calm b_plain cb_plain order_created
       _ _ _ H))))))).
Defined.

(** X24.  The error handler is called at most once per message, and only
    after a failure: it is the broker's configured error handler, it is
    called with the broker's option context, and the publication it
    receives names the subject of the delivered message and carries either
    the codec's decode error or the error the user handler returned. *)
Theorem X24_error_handler_only_on_failure (W : World) (b : natsBroker) (cb : callback)
    (msg : natsGo.Msg) h ctx pub :
  In (EvErrorHandler h ctx pub) (events (run W (fn cb msg) b)) ->
  broker.ErrorHandler (options b) = Some h /\
  ctx = broker.Context (options b) /\
  t pub = natsGo.Subject msg /\
  (exists e, err pub = Some e /\
     ((exists fe, e = foreign fe /\ decode_failed W (run W (fn cb msg) b) fe) \/
      handler_failed W (run W (fn cb msg) b) e)) /\
  length (filter is_error_handler_call (events (run W (fn cb msg) b))) = 1.
Proof.
  unfold decode_failed, handler_failed. open_fn.
  run_cases; intros Hin; each_event Hin; try discriminate;
    match goal with
    | H : EvErrorHandler _ _ _ = EvErrorHandler _ _ _ |- _ =>
        injection H as <- <- <-
    end;
    (split; [reflexivity|]); (split; [reflexivity|]);
    (split; [reflexivity|]);
    (split; [|reflexivity]);
    eexists; (split; [reflexivity|]);
    first
      [ left; eexists; split; [reflexivity|];
        do 3 eexists; split; [in_trace|eassumption]
      | right; do 3 eexists; split; [in_trace|eassumption] ].
Qed.

Lemma X24_witness :
  In (EvErrorHandler (handlerFn 9) context.Background
        {| t := "orders.created";
           m := {| broker.Headers := [];
                   broker.Body := AnyBytes (natsGo.Data order_created) |};
           err := Some (foreign (ErrExternal "invalid character")) |})
     (events (run decode_fails (fn cb_plain order_created) b_traced)) /\
  broker.ErrorHandler (options b_traced) = Some (handlerFn 9).
Proof.
  assert (H : In (EvErrorHandler (handlerFn 9) context.Background
                    {| t := "orders.created";
                       m := {| broker.Headers := [];
                               broker.Body := AnyBytes (natsGo.Data order_created) |};
                       err := Some (foreign (ErrExternal "invalid character")) |})
                 (events (run decode_fails (fn cb_plain order_created) b_traced))).
  { vm_compute. right. right. right. left. reflexivity. }
  split; [exact H|].
  exact (proj1
    (@X24_error_handler_only_on_failure decode_fails b_traced cb_plain
       order_created _ _ _ H)).
Defined.



(** X26.  With a binder and the protobuf codec, a binder value that is not
    a protobuf message makes the callback panic on the type assertion,
    right after the binder ran: nothing is decoded, the handler is not
    called, the message is not acknowledged, and a span that was started is
    not ended. *)
Theorem X26_binder_mismatch_panics (W : World) (b : natsBroker) (cb : callback)
    (msg : natsGo.Msg) (bd : Binder) (codec : encoding.Codec) :
  cb_binder cb = Some bd ->
  broker.Codec (options b) = Some codec ->
  encoding.Name codec = kProto.Name ->
  (forall id, W (EvBinder bd) <> AnyProto id) ->
  exists tr,
    run W (fn cb msg) b =
    Panics "interface conversion: not a proto.Message" b (tr ++ [EvBinder bd]) /\
    Forall (fun ev => is_span_start ev = true) tr /\
    length tr <= 1.
Proof.
  intros Hb Hc Hn Hv. open_fn. rewrite Hb.
  destruct (consumerTracer b); cbn;
    [destruct (W (EvTracerStart _ _ _ _)) as [[? ?] ?]; cbn|];
    rewrite Hc; cbn; rewrite Hn; cbn;
    (destruct (W (EvBinder bd)) eqn:Hbd; cbn;
     try (exfalso; eapply Hv; reflexivity)).
  all: match goal with
       | |- exists tr, Panics _ _ ?l = _ /\ _ => exists (removelast l)
       end; (split; [reflexivity|]); (split; [simpl; thin_trace; reflexivity|]);
    simpl; auto.
Qed.

Lemma X26_witness :
  cb_binder cb_bound = Some (binderFn 1) /\
  broker.Codec (options b_proto) = Some {| encoding.Name := kProto.Name |} /\
  encoding.Name {| encoding.Name := kProto.Name |} = kProto.Name /\
  (forall id, binder_mismatch (EvBinder (binderFn 1)) <> AnyProto id) /\
  exists tr,
    run binder_mismatch (fn cb_bound order_created) b_proto =
    Panics "interface conversion: not a proto.Message" b_proto
      (tr ++ [EvBinder (binderFn 1)]) /\
    Forall (fun ev => is_span_start ev = true) tr /\
    length tr <= 1.
Proof.
  assert (H2 : broker.Codec (options b_proto) =
               Some {| encoding.Name := kProto.Name |})
    by (vm_compute; reflexivity).
  assert (H4 : forall id, binder_mismatch (EvBinder (binderFn 1)) <> AnyProto id)
    by (intros id; discriminate).
  split; [reflexivity|]. split; [exact H2|]. split; [reflexivity|].
  split; [exact H4|].
  exact (@X26_binder_mismatch_panics binder_mismatch b_proto cb_bound
           order_created (binderFn 1) {| encoding.Name := kProto.Name |}
           eq_refl H2 eq_refl H4).
Defined.

(** ** Address *)

Lemma Address_without_conn (W : World) (b : natsBroker) :
  conn b = None ->
  run W Address b = Returns (hd defaultAddr (broker.Addrs (options b))) b [].
Proof.
  intros Hc. unfold Address. cbn. rewrite Hc. cbn.
  destruct (broker.Addrs (options b)); reflexivity.
Qed.

(** X27.  On a broker on which Connect has not been called, [Address]
    calls no collaborator and leaves the struct alone; it returns the first
    configured address exactly as stored, and the adapter's default address
    when none is configured. *)
Theorem X27_Address_before_connect :
  forall (W : World) (b : natsBroker),
    before_connect b ->
    run W Address b =
    Returns (hd defaultAddr (broker.Addrs (options b))) b [].
Proof.
  intros W b Hb. apply Address_without_conn.
  exact (before_connect_conn Hb).
Qed.

Lemma X27_witness :
  before_connect
    (final (run calm (Init [broker.WithAddress ["127.0.0.1:4222"]]) (NewBroker []))) /\
  result
    (run calm Address
       (final (run calm (Init [broker.WithAddress ["127.0.0.1:4222"]])
                 (NewBroker []))))
  = Some "127.0.0.1:4222".
Proof.
  assert (H : before_connect
    (final (run calm (Init [broker.WithAddress ["127.0.0.1:4222"]]) (NewBroker []))))
    by (apply bc_Init; apply bc_new).
  split; [exact H|].
  rewrite (@X27_Address_before_connect calm _ H). reflexivity.
Defined.

(** ** Brokers without tracers *)

Lemma Publish_untraced_quiet (W : World) (b : natsBroker) ctx topic msg opts :
  producerTracer b = None ->
  Forall (fun ev => is_tracer_call ev = false)
    (events (run W (Publish ctx topic msg opts) b)).
Proof.
  intros Ht. unfold Publish, try_. cbn -[publish].
  destruct (W (EvMarshal _ _)) as [buf|e]; [|repeat constructor].
  open_publish.
  destruct (conn b); cbn; [|thin_trace; reflexivity].
  rewrite Ht. cbn.
  run_cases; try discriminate; thin_trace; reflexivity.
Qed.

Lemma fn_untraced_quiet (W : World) (b : natsBroker) (cb : callback)
    (msg : natsGo.Msg) :
  consumerTracer b = None ->
  Forall (fun ev => is_tracer_call ev = false) (events (run W (fn cb msg) b)).
Proof.
  intros Ht. open_fn. rewrite Ht. cbn.
  run_cases; try discriminate; thin_trace; reflexivity.
Qed.

(** X28.  A broker without tracers never calls the tracer: neither Publish
    (no producer tracer) nor the per-message callback (no consumer tracer)
    starts or ends a span. *)
Theorem X28_no_tracer_no_span :
  forall (W : World) (b : natsBroker),
    (producerTracer b = None ->
     forall ctx topic msg opts,
       Forall (fun ev => is_tracer_call ev = false)
         (events (run W (Publish ctx topic msg opts) b))) /\
    (consumerTracer b = None ->
     forall cb msg,
       Forall (fun ev => is_tracer_call ev = false)
         (events (run W (fn cb msg) b))).
Proof.
  intros W b. split.
  - intros Ht ctx topic msg opts.
    exact (@Publish_untraced_quiet W b ctx topic msg opts Ht).
  - intros Ht cb msg. exact (@fn_untraced_quiet W b cb msg Ht).
Qed.

Lemma X28_witness :
  producerTracer b_plain = None /\
  consumerTracer b_plain = None /\
  Forall (fun ev => is_tracer_call ev = false)
    (events (run calm (fn cb_plain order_created) b_plain)).
Proof.
  assert (H1 : producerTracer b_plain = None) by (vm_compute; reflexivity).
  assert (H2 : consumerTracer b_plain = None) by (vm_compute; reflexivity).
  split; [exact H1|]. split; [exact H2|].
  exact (proj2 (@X28_no_tracer_no_span calm b_plain) H2 cb_plain order_created).
Defined.
